(** * BuffetPOS backend: table handlers, staff authentication and routing

    A shallow embedding of [internal/adapters/rest] (the table handler),
    [internal/adapters/middleware] (the bearer-token middleware) and the
    route registration of [main.go], with the properties the specification
    states about them. *)

From stdpp Require Import base strings gmap list pretty.
From Stdlib Require Import ZArith Ascii.

(** ** Types of the packages the handlers import

    [requests], [responses], [utils] and the persistence layer are
    collaborators of the code under study; their types are kept abstract. *)

Class Domain := {
  UUID : Type;                (* uuid.UUID *)
  AddTableRequest : Type;     (* requests.AddTableRequest *)
  EditTableRequest : Type;    (* requests.EditTableRequest *)
  AssignTableRequest : Type;  (* requests.AssignTableRequest *)
  TableDetail : Type;         (* responses.TableDetail *)
  ValidationErrors : Type;    (* the non-nil result of utils.ValidateStruct *)
  DB : Type;                  (* the state of the table store *)
}.

(** ** Package [exceptions]: sentinel errors, compared by identity *)

Module exceptions.

Inductive error :=
| ErrDuplicatedTableName
| ErrTableNotFound
| ErrTableAlreadyAssigned
| ErrOther (msg : string).

#[export] Instance error_eq_dec : EqDecision error.
Proof. solve_decision. Defined.

End exceptions.
Export exceptions.

(** ** Go's [strings.HasPrefix] and [strings.TrimPrefix] *)

Module strings_.

Fixpoint HasPrefix (s prefix : string) {struct prefix} : bool :=
  match prefix with
  | EmptyString => true
  | String p prefix' =>
      match s with
      | EmptyString => false
      | String a s' => if Ascii.eqb a p then HasPrefix s' prefix' else false
      end
  end.

(** [drop n s] is the slice [s[n:]]. *)
Fixpoint drop (n : nat) (s : string) : string :=
  match n, s with
  | O, _ => s
  | S _, EmptyString => EmptyString
  | S n', String _ s' => drop n' s'
  end.

Definition TrimPrefix (s prefix : string) : string :=
  if HasPrefix s prefix then drop (String.length prefix) s else s.

End strings_.

(** ** The part of [fiber.Ctx] the handlers use *)

Module fiber.

Definition StatusOK : Z := 200.
Definition StatusBadRequest : Z := 400.
Definition StatusUnauthorized : Z := 401.
Definition StatusForbidden : Z := 403.
Definition StatusNotFound : Z := 404.
Definition StatusInternalServerError : Z := 500.

Section Ctx.
Context `{Domain}.

(** A value handed to [c.JSON]: a [fiber.Map] with string values, a
    [*responses.TableDetail] (nil marshals to [null]), a list of tables,
    or the validation error value. [BodyUnset] is a response nobody
    wrote a body to. *)
Inductive Body :=
| BodyUnset
| BodyMap (m : gmap string string)
| BodyTable (t : option TableDetail)
| BodyTables (ts : list TableDetail)
| BodyValidation (v : ValidationErrors).

(** A value stored with [c.Locals(key, v)]: an [interface{}] holding the
    claims of a token, a [*responses.TableDetail], or something else. *)
Inductive Local :=
| LocalClaims (claims : gmap string string)
| LocalTable (t : option TableDetail)
| LocalOther (v : string).

(** [nextCalls] is a ghost counter: the number of times [c.Next()] was
    called while the request was served. *)
Record Ctx := mkCtx {
  reqMethod : string;
  reqPath : string;
  reqHeaders : gmap string string;
  reqParams : gmap string string;
  reqBody : string;
  locals : gmap string Local;
  resStatus : Z;
  resBody : Body;
  nextCalls : nat;
}.

(** What serving a request leaves: the context (with the response), the
    store, and the handler's returned [error]. *)
Record Result := mkResult {
  res_ctx : Ctx;
  res_db : DB;
  res_err : option error;
}.

Definition Handler : Type := Ctx → DB → Result.

(** A handler of a chain receives what [c.Next()] runs. *)
Definition Middleware : Type := Handler → Handler.

(** [c.Get(key)]: the request header, [""] when absent. *)
Definition Get (c : Ctx) (key : string) : string :=
  default EmptyString (reqHeaders c !! key).

(** [c.Params(key)]: the route parameter, [""] when absent. *)
Definition Params (c : Ctx) (key : string) : string :=
  default EmptyString (reqParams c !! key).

(** [c.Status(code)] sets the status and returns the context. *)
Definition Status (c : Ctx) (code : Z) : Ctx :=
  mkCtx (reqMethod c) (reqPath c) (reqHeaders c) (reqParams c) (reqBody c)
        (locals c) code (resBody c) (nextCalls c).

(** The effect of [c.JSON(v)] on the context: the body is replaced. *)
Definition writeJSON (c : Ctx) (v : Body) : Ctx :=
  mkCtx (reqMethod c) (reqPath c) (reqHeaders c) (reqParams c) (reqBody c)
        (locals c) (resStatus c) v (nextCalls c).

(** [return c.JSON(v)]: the body is written and the handler ends with a
    nil error, the store being as the handler left it. *)
Definition JSON (c : Ctx) (v : Body) (db : DB) : Result :=
  mkResult (writeJSON c v) db None.

(** [c.Locals(key, v)] *)
Definition setLocals (c : Ctx) (key : string) (v : Local) : Ctx :=
  mkCtx (reqMethod c) (reqPath c) (reqHeaders c) (reqParams c) (reqBody c)
        (<[key := v]> (locals c)) (resStatus c) (resBody c) (nextCalls c).

(** [c.Locals(key)]: nil when nothing is stored. *)
Definition Locals (c : Ctx) (key : string) : option Local :=
  locals c !! key.

Definition setParams (c : Ctx) (ps : gmap string string) : Ctx :=
  mkCtx (reqMethod c) (reqPath c) (reqHeaders c) ps (reqBody c)
        (locals c) (resStatus c) (resBody c) (nextCalls c).

Definition countNext (c : Ctx) : Ctx :=
  mkCtx (reqMethod c) (reqPath c) (reqHeaders c) (reqParams c) (reqBody c)
        (locals c) (resStatus c) (resBody c) (S (nextCalls c)).

(** [c.Next()] runs the next handler of the chain. *)
Definition Next (next : Handler) : Handler :=
  λ c db, next (countNext c) db.

End Ctx.

Arguments Body {_}.
Arguments Local {_}.
Arguments Ctx {_}.
Arguments Result {_}.
Arguments Handler {_}.
Arguments Middleware {_}.

End fiber.
Export fiber.

(** ** Package [jwt] and [configs.Config] *)

Module jwt.

Record Token := mkToken {
  Valid : bool;
  Claims : gmap string string;   (* jwt.MapClaims *)
}.

(** The two results of [jwt.Parse]: an error (the token may come with it),
    or a token and a nil error. *)
Inductive ParseResult :=
| ParseErr (tok : option Token) (err : error)
| ParseOk (tok : Token).

End jwt.

Module configs.
Record Config := mkConfig { JWTSecret : string }.
End configs.
Export jwt configs.

(** ** Functions of absent packages the code calls

    [c.BodyParser(&req)] on a nil [req] leaves the pointer ([None] is nil)
    and an error; [utils.ValidateStruct] returns nil or a value that is sent
    as the body; [utils.ValidateUUID] returns an id or an error; [jwt.Parse]
    receives the token string and the key the key function returns, and
    [jwt_Parse] stands for what it returns at the time of the request (it
    also reads the clock, for the expiry of the token). *)

Class Externals `{Domain} := {
  BodyParserAdd : Ctx → option AddTableRequest * option error;
  BodyParserEdit : Ctx → option EditTableRequest * option error;
  BodyParserAssign : Ctx → option AssignTableRequest * option error;
  ValidateStructAdd : option AddTableRequest → option ValidationErrors;
  ValidateStructEdit : option EditTableRequest → option ValidationErrors;
  ValidateStructAssign : option AssignTableRequest → option ValidationErrors;
  ValidateUUID : string → UUID + error;
  jwt_Parse : string → string → ParseResult;
  sentinelText : error → string;
}.

(** [err.Error()] *)
Definition Error `{Externals} (err : error) : string :=
  match err with
  | ErrOther msg => msg
  | _ => sentinelText err
  end.

(** ** Package [usecases]: the interface the handler holds *)

Module usecases.

Record TableUseCase `{Domain} := mkTableUseCase {
  AddTable : DB → option AddTableRequest → DB * option error;
  FindAllTables : DB → DB * (list TableDetail * option error);
  FindTableByID : DB → UUID → DB * (option TableDetail * option error);
  EditTable : DB → option EditTableRequest → DB * option error;
  DeleteTable : DB → UUID → DB * option error;
  AssignTable : DB → option AssignTableRequest → DB * (option TableDetail * option error);
}.
Arguments TableUseCase {_}.

End usecases.

(** ** Package [models]: the staff roles

    Modelled from the spec: the constants [models.Employee] and
    [models.Manager] are not among the sources; the roles carry the names
    the spec gives them. *)

Module models.
(** Modelled from the spec: [models.Employee] is absent; the role the spec
    calls Employee. *)
Definition Employee : string := "Employee".
(** Modelled from the spec: [models.Manager] is absent; the role the spec
    calls Manager. *)
Definition Manager : string := "Manager".
End models.

(** ** Package [middleware] *)

Module middleware.
Import strings_.

Section Middleware.
Context `{Externals}.

Definition AuthMiddleware (cfg : Config) : Middleware := λ next c db,
  (* Extract token from Authorization header *)
  let authHeader := Get c "Authorization" in
  if negb (HasPrefix authHeader "Bearer ") then
    JSON (Status c StatusUnauthorized)
         (BodyMap {[ "message" := "Unauthorized" ]}) db
  else
    let tokenStr := TrimPrefix authHeader "Bearer " in
    match jwt_Parse tokenStr (JWTSecret cfg) with
    | ParseErr _ _ =>
        JSON (Status c StatusUnauthorized)
             (BodyMap {[ "message" := "Unauthorized" ]}) db
    | ParseOk token =>
        if negb (Valid token) then
          JSON (Status c StatusUnauthorized)
               (BodyMap {[ "message" := "Unauthorized" ]}) db
        else
          (* Store token claims in context *)
          let c := setLocals c "user" (LocalClaims (Claims token)) in
          Next next c db
    end.

(** Modelled from the spec: [middleware.RoleMiddleware] is registered
    by [main] but is not among the sources. The spec's Authorization
    Gate: the identity must be present and its role must be one of the
    required roles, otherwise the request is rejected as Forbidden; the
    identity is the one [AuthMiddleware] stored under ["user"]. The
    text of the rejection is not fixed by the spec. *)
Definition RoleMiddleware (requiredRoles : list string) : Middleware := λ next c db,
  match Locals c "user" with
  | Some (LocalClaims claims) =>
      match claims !! "role" with
      | Some role =>
          if bool_decide (role ∈ requiredRoles) then Next next c db
          else JSON (Status c StatusForbidden) (BodyMap {[ "error" := "Forbidden" ]}) db
      | None =>
          JSON (Status c StatusForbidden) (BodyMap {[ "error" := "Forbidden" ]}) db
      end
  | _ => JSON (Status c StatusForbidden) (BodyMap {[ "error" := "Forbidden" ]}) db
  end.

End Middleware.
End middleware.

(** ** Package [rest]: the table handler *)

Module rest.

Section TableHandler.
Context `{Externals}.

Record tableHandler := mkTableHandler {
  service : usecases.TableUseCase;
}.

Definition NewTableHandler (service : usecases.TableUseCase) : tableHandler :=
  mkTableHandler service.

Definition AddTable (t : tableHandler) : Handler := λ c db,
  let '(req, perr) := BodyParserAdd c in
  let c :=
    match perr with
    | Some err =>
        writeJSON (Status c StatusBadRequest) (BodyMap {[ "error" := Error err ]})
    | None => c
    end in
  match ValidateStructAdd req with
  | Some err => JSON (Status c StatusBadRequest) (BodyValidation err) db
  | None =>
      let '(db, serr) := usecases.AddTable (service t) db req in
      match serr with
      | Some ErrDuplicatedTableName =>
          JSON (Status c StatusBadRequest)
               (BodyMap {[ "error" := "Table name already exists" ]}) db
      | Some err =>
          JSON (Status c StatusInternalServerError)
               (BodyMap {[ "error" := Error err ]}) db
      | None =>
          JSON (Status c StatusOK)
               (BodyMap {[ "message" := "Table added successfully" ]}) db
      end
  end.

Definition FindAllTables (t : tableHandler) : Handler := λ c db,
  let '(db, (tables, err)) := usecases.FindAllTables (service t) db in
  match err with
  | Some err =>
      JSON (Status c StatusInternalServerError)
           (BodyMap {[ "error" := Error err ]}) db
  | None => JSON (Status c StatusOK) (BodyTables tables) db
  end.

Definition FindTableByID (t : tableHandler) : Handler := λ c db,
  match ValidateUUID (Params c "id") with
  | inr _ =>
      JSON (Status c StatusBadRequest) (BodyMap {[ "error" := "Invalid UUID" ]}) db
  | inl id =>
      let '(db, (table, err)) := usecases.FindTableByID (service t) db id in
      match err with
      | Some ErrTableNotFound =>
          JSON (Status c StatusNotFound)
               (BodyMap {[ "error" := "Table not found" ]}) db
      | Some err =>
          JSON (Status c StatusInternalServerError)
               (BodyMap {[ "error" := Error err ]}) db
      | None => JSON (Status c StatusOK) (BodyTable table) db
      end
  end.

Definition Edit (t : tableHandler) : Handler := λ c db,
  let '(req, perr) := BodyParserEdit c in
  let c :=
    match perr with
    | Some err =>
        writeJSON (Status c StatusBadRequest) (BodyMap {[ "error" := Error err ]})
    | None => c
    end in
  match ValidateStructEdit req with
  | Some err => JSON (Status c StatusBadRequest) (BodyValidation err) db
  | None =>
      let '(db, serr) := usecases.EditTable (service t) db req in
      match serr with
      | Some ErrTableNotFound =>
          JSON (Status c StatusBadRequest)
               (BodyMap {[ "error" := "Table not found" ]}) db
      | Some err =>
          JSON (Status c StatusInternalServerError)
               (BodyMap {[ "error" := Error err ]}) db
      | None =>
          JSON (Status c StatusOK)
               (BodyMap {[ "message" := "Table edited successfully" ]}) db
      end
  end.

Definition Delete (t : tableHandler) : Handler := λ c db,
  match ValidateUUID (Params c "id") with
  | inr _ =>
      JSON (Status c StatusBadRequest) (BodyMap {[ "error" := "Invalid UUID" ]}) db
  | inl id =>
      let '(db, serr) := usecases.DeleteTable (service t) db id in
      match serr with
      | Some ErrTableNotFound =>
          JSON (Status c StatusBadRequest)
               (BodyMap {[ "error" := "Table not found" ]}) db
      | Some err =>
          JSON (Status c StatusInternalServerError)
               (BodyMap {[ "error" := Error err ]}) db
      | None =>
          JSON (Status c StatusOK)
               (BodyMap {[ "message" := "Table deleted successfully" ]}) db
      end
  end.

Definition AssignTable (t : tableHandler) : Handler := λ c db,
  let '(req, perr) := BodyParserAssign c in
  let c :=
    match perr with
    | Some err =>
        writeJSON (Status c StatusBadRequest) (BodyMap {[ "error" := Error err ]})
    | None => c
    end in
  match ValidateStructAssign req with
  | Some err => JSON (Status c StatusBadRequest) (BodyValidation err) db
  | None =>
      let '(db, (table, err)) := usecases.AssignTable (service t) db req in
      match err with
      | Some ErrTableNotFound =>
          JSON (Status c StatusBadRequest)
               (BodyMap {[ "error" := "Table not found" ]}) db
      | Some ErrTableAlreadyAssigned =>
          JSON (Status c StatusBadRequest)
               (BodyMap {[ "error" := "Table already assigned" ]}) db
      | Some err =>
          JSON (Status c StatusInternalServerError)
               (BodyMap {[ "error" := Error err ]}) db
      | None => JSON (Status c StatusOK) (BodyTable table) db
      end
  end.

Definition FindCustomerTable (t : tableHandler) : Handler := λ c db,
  let claims :=
    match Locals c "table" with
    | Some (LocalTable p) => p
    | _ => None
    end in
  JSON (Status c StatusOK) (BodyTable claims) db.

End TableHandler.
End rest.

(** ** [main.go]: the routes

    [fiber]'s router keeps a stack of routes in registration order; a
    request runs the handlers of the first route that matches, and
    [c.Next()] in the last handler of a route goes on to the next route
    that matches. [app.Use] and the handlers of [app.Group] are routes that
    match by prefix and for every method. *)

Module main.
Import strings_.

Inductive HandlerName :=
| cors_New
| swagger_HandlerDefault
| rootHandler
| userHandler_Register
| userHandler_Login
| middleware_AuthMiddleware
| middleware_RoleMiddleware (roles : list string)
| tableHandler_AddTable
| tableHandler_FindAllTables
| tableHandler_FindTableByID
| tableHandler_FindCustomerTable
| tableHandler_Edit
| tableHandler_Delete
| tableHandler_AssignTable
| categoryHandler_FindAllCategories
| categoryHandler_FindCategoryByID
| categoryHandler_AddCategory
| menuHandler_FindAll
| menuHandler_FindByID
| menuHandler_Create.

#[export] Instance HandlerName_eq_dec : EqDecision HandlerName.
Proof. solve_decision. Defined.

Record Route := mkRoute {
  r_use : bool;
  r_method : string;
  r_path : string;
  r_handlers : list HandlerName;
}.

(** The stack of the app, oldest route first. *)
Definition App : Type := list Route.

Definition New : App := [].

(** [app.Use(h)] *)
Definition Use (hs : list HandlerName) (app : App) : App :=
  app ++ [mkRoute true "" "/" hs].

(** [app.Get(path, h)] and the like *)
Definition Add (method path : string) (h : HandlerName) (app : App) : App :=
  app ++ [mkRoute false method path [h]].

(** [app.Group(prefix, hs...)]: the group is its prefix; its handlers, if
    any, are registered for the prefix. *)
Definition Group (prefix : string) (hs : list HandlerName) (app : App) : string * App :=
  (prefix, match hs with [] => app | _ => app ++ [mkRoute true "" prefix hs] end).

(** [grp.Get(path, h)] and the like *)
Definition GroupAdd (grp method path : string) (h : HandlerName) (app : App) : App :=
  Add method (grp +:+ path) h app.

Definition routes : App :=
  let app := New in
  let app := Use [cors_New] app in
  let app := Add "GET" "/swagger/*" swagger_HandlerDefault app in
  let app := Add "GET" "/" rootHandler app in
  let '(auth, app) := Group "/auth" [] app in
  let app := GroupAdd auth "POST" "/register" userHandler_Register app in
  let app := GroupAdd auth "POST" "/login" userHandler_Login app in
  let '(manage, app) :=
    Group "/manage"
          [middleware_AuthMiddleware;
           middleware_RoleMiddleware [models.Employee; models.Manager]] app in
  let app := GroupAdd manage "GET" "/tables" tableHandler_FindAllTables app in
  let app := GroupAdd manage "GET" "/tables/:id" tableHandler_FindTableByID app in
  let app := GroupAdd manage "POST" "/tables" tableHandler_AddTable app in
  let app := GroupAdd manage "PUT" "/tables" tableHandler_Edit app in
  let app := GroupAdd manage "DELETE" "/tables/:id" tableHandler_Delete app in
  let app := GroupAdd manage "GET" "/categories" categoryHandler_FindAllCategories app in
  let app := GroupAdd manage "GET" "/categories/:id" categoryHandler_FindCategoryByID app in
  let app := GroupAdd manage "POST" "/categories" categoryHandler_AddCategory app in
  let app := GroupAdd manage "GET" "/menus" menuHandler_FindAll app in
  let app := GroupAdd manage "GET" "/menus/:id" menuHandler_FindByID app in
  let app := GroupAdd manage "POST" "/menus" menuHandler_Create app in
  app.

(** *** Matching a request against a route *)

(** The segments of a path between its slashes. *)
Fixpoint segments_aux (s acc : string) : list string :=
  match s with
  | EmptyString => [String.rev acc]
  | String a s' =>
      if Ascii.eqb a "/"%char then String.rev acc :: segments_aux s' EmptyString
      else segments_aux s' (String a acc)
  end.

Definition segments (s : string) : list string := segments_aux s EmptyString.

(** A segment [:name] of the pattern binds a non-empty segment of the
    path, [*] takes what is left, any other segment is compared as it
    is. *)
Fixpoint matchSegments (pattern path : list string) (ps : gmap string string)
  : option (gmap string string) :=
  match pattern, path with
  | [], [] => Some ps
  | String "*"%char EmptyString :: _, _ => Some ps
  | String ":"%char name :: pattern', x :: path' =>
      if String.eqb x EmptyString then None
      else matchSegments pattern' path' (<[name := x]> ps)
  | p :: pattern', x :: path' =>
      if String.eqb p x then matchSegments pattern' path' ps else None
  | _, _ => None
  end.

Section Serve.
Context `{Externals}.

(** [route.match]: the parameters of the request if it matches. *)
Definition matchRoute (r : Route) (c : Ctx) : option (gmap string string) :=
  if r_use r then
    if HasPrefix (reqPath c) (r_path r) then Some (reqParams c) else None
  else if String.eqb (r_method r) (reqMethod c) then
    matchSegments (segments (r_path r)) (segments (reqPath c)) ∅
  else None.

(** The handler values [main] builds: the table handler over its
    service and the two middlewares over the configuration; the
    handlers of the other packages are taken as they come. *)
Record Wiring := mkWiring {
  cfg : Config;
  tableHandler : rest.tableHandler;
  foreign : HandlerName → Middleware;
  notFound : Handler;
}.

Definition handlerOf (w : Wiring) (h : HandlerName) : Middleware :=
  match h with
  | middleware_AuthMiddleware => middleware.AuthMiddleware (cfg w)
  | middleware_RoleMiddleware roles => middleware.RoleMiddleware roles
  | tableHandler_AddTable => λ _, rest.AddTable (tableHandler w)
  | tableHandler_FindAllTables => λ _, rest.FindAllTables (tableHandler w)
  | tableHandler_FindTableByID => λ _, rest.FindTableByID (tableHandler w)
  | tableHandler_FindCustomerTable => λ _, rest.FindCustomerTable (tableHandler w)
  | tableHandler_Edit => λ _, rest.Edit (tableHandler w)
  | tableHandler_Delete => λ _, rest.Delete (tableHandler w)
  | tableHandler_AssignTable => λ _, rest.AssignTable (tableHandler w)
  | _ => foreign w h
  end.

(** The handlers of one route, the last one continuing with [k]. *)
Definition chain (w : Wiring) (hs : list HandlerName) (k : Handler) : Handler :=
  foldr (λ h next, handlerOf w h next) k hs.

(** Serving a request from a position of the stack on. *)
Fixpoint serve (w : Wiring) (stack : list Route) : Handler :=
  match stack with
  | [] => notFound w
  | r :: stack' => λ c db,
      match matchRoute r c with
      | Some ps => chain w (r_handlers r) (serve w stack') (setParams c ps) db
      | None => serve w stack' c db
      end
  end.

End Serve.
End main.

(** ** The table service of the spec

    Modelled from the spec: the package [usecases] (the table service behind
    [TableUseCase]), [requests] and [responses] are not among the sources.
    The definitions follow sections 3, 4.4 and 4.5 of the spec: a table has
    an id, a name unique among the live tables, a capacity, a status and an
    access code; creation and edit fail with [DuplicateName] when another
    live table has the proposed name (compared as it is written); a
    missing target is [NotFound]; [assign] goes from [Free] to [Occupied]
    with a new code and fails with [AlreadyAssigned] otherwise. Ids and
    codes come from generators the service is built with. The spec says
    nothing of a nil request: the model reports an internal error and
    leaves the store as it is. *)

Module tablespec.

(** Modelled from the spec: the status of a table, section 3. *)
Inductive TableStatus := Free | Occupied.

(** Modelled from the spec: [responses.TableDetail] is absent; the Table of
    section 3. An absent access code is the empty string. *)
Record Table := mkTable {
  id : string;
  name : string;
  capacity : Z;
  status : TableStatus;
  accessCode : string;
}.

(** Modelled from the spec: [requests.AddTableRequest] is absent; what a
    creation proposes. *)
Record AddTableReq := mkAddTableReq {
  add_name : string;
  add_capacity : Z;
}.

(** Modelled from the spec: [requests.EditTableRequest] is absent; the
    target and what an edit proposes. *)
Record EditTableReq := mkEditTableReq {
  edit_id : string;
  edit_name : string;
  edit_capacity : Z;
}.

(** Modelled from the spec: [requests.AssignTableRequest] is absent; the
    table to assign. *)
Record AssignTableReq := mkAssignTableReq {
  assign_id : string;
}.

#[export] Instance domain : Domain := {|
  UUID := string;
  AddTableRequest := AddTableReq;
  EditTableRequest := EditTableReq;
  AssignTableRequest := AssignTableReq;
  TableDetail := Table;
  ValidationErrors := list string;
  DB := list Table;
|}.

(** Modelled from the spec: the internal failure reported for a nil
    request, of which the spec says nothing. *)
Definition nilRequest : error := ErrOther "nil request".

(** Modelled from the spec: the live table with this id. *)
Definition findByID (i : string) (store : list Table) : option Table :=
  List.find (λ t, String.eqb (id t) i) store.

(** Modelled from the spec: some live table has this name, letter for
    letter. *)
Definition nameTaken (n : string) (store : list Table) : bool :=
  existsb (λ t, String.eqb (name t) n) store.

(** Modelled from the spec: some live table other than [i] has this
    name. *)
Definition nameTakenByOther (i n : string) (store : list Table) : bool :=
  existsb (λ t, negb (String.eqb (id t) i) && String.eqb (name t) n) store.

(** Modelled from the spec: the store with the record of [t']'s id
    replaced. *)
Definition replace (t' : Table) (store : list Table) : list Table :=
  (λ t, if String.eqb (id t) (id t') then t' else t) <$> store.

Section Service.
Variable newID : list Table → string.
Variable newCode : list Table → string.

(** Modelled from the spec: creation, sections 3 and 4.4. The new table is
    [Free] and has no code. *)
Definition AddTable (store : list Table) (req : option AddTableReq)
  : list Table * option error :=
  match req with
  | None => (store, Some nilRequest)
  | Some req =>
      if nameTaken (add_name req) store then (store, Some ErrDuplicatedTableName)
      else (store ++ [mkTable (newID store) (add_name req) (add_capacity req) Free ""],
            None)
  end.

(** Modelled from the spec: [findAll], a read of the store. *)
Definition FindAllTables (store : list Table)
  : list Table * (list Table * option error) :=
  (store, (store, None)).

(** Modelled from the spec: [findByID]; a missing id is [NotFound]. *)
Definition FindTableByID (store : list Table) (i : string)
  : list Table * (option Table * option error) :=
  match findByID i store with
  | Some t => (store, (Some t, None))
  | None => (store, (None, Some ErrTableNotFound))
  end.

(** Modelled from the spec: edit, section 4.4 and 4.5: [NotFound] for a
    missing target, [DuplicateName] when another live table has the
    proposed name; the status and the code are kept. *)
Definition EditTable (store : list Table) (req : option EditTableReq)
  : list Table * option error :=
  match req with
  | None => (store, Some nilRequest)
  | Some req =>
      match findByID (edit_id req) store with
      | None => (store, Some ErrTableNotFound)
      | Some t =>
          if nameTakenByOther (edit_id req) (edit_name req) store
          then (store, Some ErrDuplicatedTableName)
          else (replace (mkTable (id t) (edit_name req) (edit_capacity req)
                                 (status t) (accessCode t)) store,
                None)
      end
  end.

(** Modelled from the spec: delete removes the record whatever its
    status; a missing id is [NotFound]. *)
Definition DeleteTable (store : list Table) (i : string)
  : list Table * option error :=
  match findByID i store with
  | None => (store, Some ErrTableNotFound)
  | Some _ => (List.filter (λ t, negb (String.eqb (id t) i)) store, None)
  end.

(** Modelled from the spec: [assign], sections 4.4 and 4.5. *)
Definition AssignTable (store : list Table) (req : option AssignTableReq)
  : list Table * (option Table * option error) :=
  match req with
  | None => (store, (None, Some nilRequest))
  | Some req =>
      match findByID (assign_id req) store with
      | None => (store, (None, Some ErrTableNotFound))
      | Some t =>
          match status t with
          | Occupied => (store, (None, Some ErrTableAlreadyAssigned))
          | Free =>
              let t' := mkTable (id t) (name t) (capacity t) Occupied (newCode store) in
              (replace t' store, (Some t', None))
          end
      end
  end.

(** Modelled from the spec: [usecases.NewTableService] is absent; the
    service made of the operations above. *)
Definition NewTableService : usecases.TableUseCase :=
  usecases.mkTableUseCase _ AddTable FindAllTables FindTableByID
                          EditTable DeleteTable AssignTable.

End Service.
End tablespec.

(** ** A concrete instance of the collaborators

    Stand-ins for the body parser, the validator, the UUID check and the
    token parser, to run the handlers on examples: a body is the proposed
    name (an empty body does not parse), a token is the secret, a colon and
    the role. *)

Module example.
Import strings_ tablespec.

Definition parseError : error := ErrOther "unexpected end of JSON input".

Definition parseWith {R : Type} (mk : string → R) (c : Ctx) : option R * option error :=
  if String.eqb (reqBody c) EmptyString then (None, Some parseError)
  else (Some (mk (reqBody c)), None).

Definition validateName {R : Type} (nm : R → string) (req : option R) : option (list string) :=
  match req with
  | None => None
  | Some r => if String.eqb (nm r) " " then Some ["name is required"] else None
  end.

(** A validator that also rejects the nil request. *)
Definition validateRequired {R : Type} (nm : R → string) (req : option R)
  : option (list string) :=
  match req with
  | None => Some ["request is required"]
  | Some _ => validateName nm req
  end.

Definition parseToken (tokenStr secret : string) : ParseResult :=
  if HasPrefix tokenStr (secret +:+ ":") then
    ParseOk (mkToken true {[ "role" := TrimPrefix tokenStr (secret +:+ ":") ]})
  else if String.eqb tokenStr "expired" then
    ParseOk (mkToken false ∅)
  else ParseErr None (ErrOther "signature is invalid").

#[export] Instance externals : Externals := {|
  BodyParserAdd := parseWith (λ b, mkAddTableReq b 4);
  BodyParserEdit := parseWith (λ b, mkEditTableReq "t1" b 4);
  BodyParserAssign := parseWith (λ b, mkAssignTableReq b);
  ValidateStructAdd := validateName add_name;
  ValidateStructEdit := validateRequired edit_name;
  ValidateStructAssign := validateName assign_id;
  ValidateUUID := λ s, if String.eqb s EmptyString then inr (ErrOther "invalid UUID length")
                       else inl s;
  jwt_Parse := parseToken;
  sentinelText := λ e,
    match e with
    | ErrDuplicatedTableName => "table name already exists"
    | ErrTableNotFound => "table not found"
    | ErrTableAlreadyAssigned => "table already assigned"
    | ErrOther msg => msg
    end;
|}.

(** Ids are numbered and every code is the same. *)
Definition newID (tables : list Table) : string := "t" +:+ pretty (S (length tables)).
Definition newCode (tables : list Table) : string := "c0de".

Definition service : usecases.TableUseCase := NewTableService newID newCode.

Definition handler : rest.tableHandler := rest.NewTableHandler service.

(** A service every operation of which fails with [err]. *)
Definition failing (err : error) : usecases.TableUseCase :=
  usecases.mkTableUseCase _
    (λ db _, (db, Some err)) (λ db, (db, ([], Some err))) (λ db _, (db, (None, Some err)))
    (λ db _, (db, Some err)) (λ db _, (db, Some err)) (λ db _, (db, (None, Some err))).

(** A service that accepts whatever it is given and finds nothing. *)
Definition lenient : usecases.TableUseCase :=
  usecases.mkTableUseCase _
    (λ db _, (db, None)) (λ db, (db, (db, None))) (λ db _, (db, (None, None)))
    (λ db _, (db, None)) (λ db _, (db, None)) (λ db _, (db, (None, None))).

Definition config : Config := mkConfig "s3cret".

Definition wiring : main.Wiring :=
  main.mkWiring config handler
    (λ _ next, Next next)
    (λ c db, mkResult (Status c StatusNotFound) db (Some (ErrOther "Cannot find route"))).

Definition request (method path : string) (headers : gmap string string) (body : string)
  : Ctx :=
  mkCtx method path headers ∅ body ∅ StatusOK BodyUnset 0.

Definition T1 : Table := mkTable "t1" "T1" 4 Free "".
Definition T2 : Table := mkTable "t2" "T2" 2 Occupied "c0de".
Definition store : list Table := [T1; T2].

Definition bearer (tokenStr : string) : gmap string string :=
  {[ "Authorization" := "Bearer " +:+ tokenStr ]}.

(** A next handler that leaves everything as it is. *)
Definition pass : Handler := λ c db, mkResult c db None.

(** A validator whose messages are marshalled into one error text. *)
Definition renderErrors (v : list string) : Body :=
  BodyMap {[ "error" := String.concat "; " v ]}.

(** What the context may hold under ["table"]. *)
Definition boundTable : Local := LocalTable (Some T2).
Definition notATable : Local := LocalOther "T2".

End example.

(** * The vocabulary of the statements *)

Section Vocabulary.
Context `{Externals}.

(** The response of a rejected request: 401 and the middleware's body,
    written over the incoming context; nothing else changes. *)
Definition unauthorized (c : Ctx) (db : DB) : Result :=
  JSON (Status c StatusUnauthorized) (BodyMap {[ "message" := "Unauthorized" ]}) db.

(** The request fails authentication: the header is missing or has no
    [Bearer ] prefix, or [jwt.Parse] returns an error or a token that is
    not valid. *)
Definition authFails (cfg : Config) (c : Ctx) : Prop :=
  reqHeaders c !! "Authorization" = None
  ∨ strings_.HasPrefix (Get c "Authorization") "Bearer " = false
  ∨ (∃ tok err,
       jwt_Parse (strings_.TrimPrefix (Get c "Authorization") "Bearer ") (JWTSecret cfg)
       = ParseErr tok err)
  ∨ (∃ tok,
       jwt_Parse (strings_.TrimPrefix (Get c "Authorization") "Bearer ") (JWTSecret cfg)
       = ParseOk tok ∧ Valid tok = false).

(** The shapes of a response body. *)
Definition isMessage (b : Body) : Prop := ∃ text, b = BodyMap {[ "message" := text ]}.
Definition isError (b : Body) : Prop := ∃ text, b = BodyMap {[ "error" := text ]}.
Definition isTable (b : Body) : Prop := ∃ t, b = BodyTable t.
Definition isTables (b : Body) : Prop := ∃ ts, b = BodyTables ts.

Definition statusOf (r : Result) : Z := resStatus (res_ctx r).
Definition bodyOf (r : Result) : Body := resBody (res_ctx r).

(** The context a parse error leaves: 400 and the error's text. *)
Definition afterParseError (c : Ctx) (err : error) : Ctx :=
  writeJSON (Status c StatusBadRequest) (BodyMap {[ "error" := Error err ]}).

End Vocabulary.

(** How a handler ended: the validator rejected the request with a value,
    the handler or the service failed, or the operation succeeded. *)
Inductive Outcome `{Domain} : Type :=
| Rejected (v : ValidationErrors)
| Failed
| Succeeded.

(** The outcome a service error, or its absence, stands for. *)
Definition outcomeOf `{Domain} (err : option error) : Outcome :=
  match err with
  | Some _ => Failed
  | None => Succeeded
  end.

(** The envelope of a response for an outcome: a rejected request is
    answered 400 with the validator's value as it is, a failure with
    [{"error": text}] and a status other than 200, a success with 200 and
    a body of the [success] shape. *)
Definition envelope `{Domain} (success : Body → Prop) (o : Outcome) (r : Result) : Prop :=
  match o with
  | Rejected v => statusOf r = StatusBadRequest ∧ bodyOf r = BodyValidation v
  | Failed => statusOf r ≠ StatusOK ∧ isError (bodyOf r)
  | Succeeded => statusOf r = StatusOK ∧ success (bodyOf r)
  end.

(** What goes on the wire for a body, [render] being what the validator's
    value marshals to ([utils] is not among the sources). *)
Definition sent `{Domain} (render : ValidationErrors → Body) (b : Body) : Body :=
  match b with
  | BodyValidation v => render v
  | _ => b
  end.

(** The routes behind [app.Use(cors.New())], and the routes registered on
    the [/manage] group. *)
Definition behindCors : list main.Route := List.tl main.routes.
Definition manageRoutes : list main.Route := List.skipn 6 main.routes.

(** The routes registered after [/auth/register], and after [/auth/login]. *)
Definition afterRegister : list main.Route := List.skipn 4 main.routes.
Definition afterLogin : list main.Route := List.skipn 5 main.routes.

(** The seven operations of the [TableHandler] interface. *)
Definition tableHandlers `{Externals} : list (rest.tableHandler → Handler) :=
  [ rest.AddTable; rest.FindAllTables; rest.FindTableByID; rest.FindCustomerTable;
    rest.Edit; rest.Delete; rest.AssignTable ].

(** [c'] is [c] but for the response: the request, the route parameters,
    the locals and the count of [c.Next()] calls are the same. *)
Definition sameRequest `{Domain} (c c' : Ctx) : Prop :=
  reqMethod c' = reqMethod c
  ∧ reqPath c' = reqPath c
  ∧ reqHeaders c' = reqHeaders c
  ∧ reqParams c' = reqParams c
  ∧ reqBody c' = reqBody c
  ∧ locals c' = locals c
  ∧ nextCalls c' = nextCalls c.

(** * Properties *)

Import strings_.

(** ** Strings *)

Lemma HasPrefix_app (p t : string) : HasPrefix (p +:+ t) p = true.
Proof.
  induction p as [|a p IH]; simpl; [done|].
  by rewrite Ascii.eqb_refl.
Qed.

Lemma drop_app (p t : string) : drop (String.length p) (p +:+ t) = t.
Proof. induction p as [|a p IH]; simpl; [by destruct t|done]. Qed.

Lemma TrimPrefix_app (p t : string) : TrimPrefix (p +:+ t) p = t.
Proof. unfold TrimPrefix. by rewrite HasPrefix_app, drop_app. Qed.

Lemma HasPrefix_inv (s p : string) :
  HasPrefix s p = true → ∃ t, s = p +:+ t.
Proof.
  revert s. induction p as [|a p IH]; intros s Hs; simpl in *.
  - by exists s.
  - destruct s as [|b s]; [done|].
    destruct (Ascii.eqb b a) eqn:Hab; [|done].
    apply Ascii.eqb_eq in Hab as ->.
    destruct (IH _ Hs) as [t ->]. by exists t.
Qed.

(** ** The bearer-token middleware *)

Section AuthProperties.
Context `{Externals}.
Import middleware.

Lemma auth_rejects cfg next c db :
  authFails cfg c → AuthMiddleware cfg next c db = unauthorized c db.
Proof.
  unfold AuthMiddleware, unauthorized.
  intros [Hnone | [Hpre | [(tok & err & Hp) | (tok & Hp & Hv)]]].
  - unfold Get. by rewrite Hnone.
  - by rewrite Hpre.
  - rewrite Hp. by destruct (HasPrefix _ _).
  - rewrite Hp, Hv. by destruct (HasPrefix _ _).
Qed.

Lemma auth_accepts cfg next c db tokenStr tok :
  Get c "Authorization" = "Bearer " +:+ tokenStr →
  jwt_Parse tokenStr (JWTSecret cfg) = ParseOk tok →
  Valid tok = true →
  AuthMiddleware cfg next c db
  = next (countNext (setLocals c "user" (LocalClaims (Claims tok)))) db.
Proof.
  intros Hh Hp Hv. unfold AuthMiddleware.
  rewrite Hh, HasPrefix_app, TrimPrefix_app, Hp, Hv. done.
Qed.

Lemma auth_rejects_token cfg next c db tokenStr :
  Get c "Authorization" = "Bearer " +:+ tokenStr →
  (∃ tok err, jwt_Parse tokenStr (JWTSecret cfg) = ParseErr tok err)
  ∨ (∃ tok, jwt_Parse tokenStr (JWTSecret cfg) = ParseOk tok ∧ Valid tok = false) →
  AuthMiddleware cfg next c db = unauthorized c db.
Proof.
  intros Hh Hbad. apply auth_rejects. unfold authFails.
  rewrite Hh, TrimPrefix_app. tauto.
Qed.

(** C1. A request to a staff route whose [Authorization] header is
    missing, has no [Bearer ] prefix, or carries a token that does not
    verify, is answered 401 by [AuthMiddleware] whatever the next handler
    is: the result is the 401 response written over the incoming context,
    [c.Next()] is not called, nothing is stored in the context and the
    store is untouched. With [RoleMiddleware] as the next handler, as
    [main] registers it, the role check is not reached: the status is
    401, not 403. *)
Theorem auth_failure_is_unauthenticated cfg (next : Handler) c db :
  authFails cfg c →
  AuthMiddleware cfg next c db = unauthorized c db
  ∧ statusOf (AuthMiddleware cfg next c db) = StatusUnauthorized
  ∧ nextCalls (res_ctx (AuthMiddleware cfg next c db)) = nextCalls c
  ∧ locals (res_ctx (AuthMiddleware cfg next c db)) = locals c
  ∧ res_db (AuthMiddleware cfg next c db) = db
  ∧ ∀ roles k,
      statusOf (AuthMiddleware cfg (RoleMiddleware roles k) c db) = StatusUnauthorized
      ∧ statusOf (AuthMiddleware cfg (RoleMiddleware roles k) c db) ≠ StatusForbidden
      ∧ nextCalls (res_ctx (AuthMiddleware cfg (RoleMiddleware roles k) c db))
        = nextCalls c.
Proof.
  intros Hf. rewrite (auth_rejects cfg next c db Hf).
  repeat split; try done.
  all: rewrite (auth_rejects cfg _ c db Hf); done.
Qed.

(** C8. For a request whose bearer token parses and is valid under the
    configured secret, [AuthMiddleware] stores the token's claims in the
    context under ["user"] and calls [c.Next()]: the next handler runs on
    the incoming context with that one entry added (and the call
    counted) and on the same store, and its result is the middleware's
    result. A token [jwt.Parse] rejects, or returns as not valid, is
    answered 401 without calling the next handler. *)
Theorem auth_success_stores_claims cfg (next : Handler) c db tokenStr :
  Get c "Authorization" = "Bearer " +:+ tokenStr →
  (∀ tok, jwt_Parse tokenStr (JWTSecret cfg) = ParseOk tok → Valid tok = true →
     AuthMiddleware cfg next c db
     = next (countNext (setLocals c "user" (LocalClaims (Claims tok)))) db
     ∧ locals (countNext (setLocals c "user" (LocalClaims (Claims tok))))
       = <["user" := LocalClaims (Claims tok)]> (locals c)
     ∧ resStatus (countNext (setLocals c "user" (LocalClaims (Claims tok)))) = resStatus c
     ∧ resBody (countNext (setLocals c "user" (LocalClaims (Claims tok)))) = resBody c)
  ∧ ((∃ tok err, jwt_Parse tokenStr (JWTSecret cfg) = ParseErr tok err)
     ∨ (∃ tok, jwt_Parse tokenStr (JWTSecret cfg) = ParseOk tok ∧ Valid tok = false) →
     AuthMiddleware cfg next c db = unauthorized c db
     ∧ statusOf (AuthMiddleware cfg next c db) = StatusUnauthorized
     ∧ nextCalls (res_ctx (AuthMiddleware cfg next c db)) = nextCalls c).
Proof.
  intros Hh. split.
  - intros tok Hp Hv. by rewrite (auth_accepts _ _ _ _ _ _ Hh Hp Hv).
  - intros Hbad. by rewrite (auth_rejects_token _ _ _ _ _ Hh Hbad).
Qed.

End AuthProperties.

(** ** The table handler *)

Section RestProperties.
Context `{Externals}.
Implicit Types (t : rest.tableHandler) (c : Ctx) (db : DB).

(** C2. When validation passes, so that [AssignTable] calls the service:
    [ErrTableNotFound] is answered 400 with "Table not found",
    [ErrTableAlreadyAssigned] 400 with "Table already assigned", any
    other error 500 with the error's text, and success 200 with the
    table the service returned as the body. The store is as the service
    left it. *)
Theorem assign_table_responses t c db :
  ValidateStructAssign (BodyParserAssign c).1 = None →
  let out := usecases.AssignTable (rest.service t) db (BodyParserAssign c).1 in
  let r := rest.AssignTable t c db in
  res_db r = out.1
  ∧ (out.2.2 = Some ErrTableNotFound →
     statusOf r = StatusBadRequest ∧ bodyOf r = BodyMap {[ "error" := "Table not found" ]})
  ∧ (out.2.2 = Some ErrTableAlreadyAssigned →
     statusOf r = StatusBadRequest
     ∧ bodyOf r = BodyMap {[ "error" := "Table already assigned" ]})
  ∧ (∀ err, out.2.2 = Some err → err ≠ ErrTableNotFound →
     err ≠ ErrTableAlreadyAssigned →
     statusOf r = StatusInternalServerError ∧ bodyOf r = BodyMap {[ "error" := Error err ]})
  ∧ (out.2.2 = None → statusOf r = StatusOK ∧ bodyOf r = BodyTable out.2.1).
Proof.
  intros Hv. unfold rest.AssignTable.
  destruct (BodyParserAssign c) as [req perr]. simpl in Hv |- *. rewrite Hv.
  destruct (usecases.AssignTable _ db req) as [db' [table err]]. simpl.
  destruct err as [[]|]; repeat split; try done; intros; simplify_eq; done.
Qed.

(** C4. [ErrTableNotFound] from the service is answered 404 by
    [FindTableByID] and 400 by [Edit], [Delete] and [AssignTable], each
    with the body [{"error": "Table not found"}]. *)
Theorem table_not_found_status t c db :
  (∀ id, ValidateUUID (Params c "id") = inl id →
     (usecases.FindTableByID (rest.service t) db id).2.2 = Some ErrTableNotFound →
     statusOf (rest.FindTableByID t c db) = StatusNotFound
     ∧ bodyOf (rest.FindTableByID t c db) = BodyMap {[ "error" := "Table not found" ]})
  ∧ (ValidateStructEdit (BodyParserEdit c).1 = None →
     (usecases.EditTable (rest.service t) db (BodyParserEdit c).1).2
     = Some ErrTableNotFound →
     statusOf (rest.Edit t c db) = StatusBadRequest
     ∧ bodyOf (rest.Edit t c db) = BodyMap {[ "error" := "Table not found" ]})
  ∧ (∀ id, ValidateUUID (Params c "id") = inl id →
     (usecases.DeleteTable (rest.service t) db id).2 = Some ErrTableNotFound →
     statusOf (rest.Delete t c db) = StatusBadRequest
     ∧ bodyOf (rest.Delete t c db) = BodyMap {[ "error" := "Table not found" ]})
  ∧ (ValidateStructAssign (BodyParserAssign c).1 = None →
     (usecases.AssignTable (rest.service t) db (BodyParserAssign c).1).2.2
     = Some ErrTableNotFound →
     statusOf (rest.AssignTable t c db) = StatusBadRequest
     ∧ bodyOf (rest.AssignTable t c db) = BodyMap {[ "error" := "Table not found" ]}).
Proof.
  repeat apply conj.
  - intros id Hid. unfold rest.FindTableByID. rewrite Hid.
    destruct (usecases.FindTableByID _ db id) as [db' [table err]]. simpl.
    by intros ->.
  - unfold rest.Edit. destruct (BodyParserEdit c) as [req perr]. simpl.
    intros ->. destruct (usecases.EditTable _ db req) as [db' err]. simpl.
    by intros ->.
  - intros id Hid. unfold rest.Delete. rewrite Hid.
    destruct (usecases.DeleteTable _ db id) as [db' err]. simpl.
    by intros ->.
  - unfold rest.AssignTable. destruct (BodyParserAssign c) as [req perr]. simpl.
    intros ->. destruct (usecases.AssignTable _ db req) as [db' [table err]]. simpl.
    by intros ->.
Qed.

(** C9. In [AddTable], [Edit] and [AssignTable] a body that fails to
    parse does not end the handler. The 400 response of the parse error
    is written, and the handler goes on with the request value the
    parser left: if validation rejects it, the validator's value replaces
    the body; if validation passes, the service is called with it, the
    store is what the service leaves, and a success of the service is
    answered 200. This holds in particular for the nil request. *)
Theorem parse_error_falls_through t c db :
  (∀ req perr, BodyParserAdd c = (req, Some perr) →
     (∀ v, ValidateStructAdd req = Some v →
        rest.AddTable t c db
        = JSON (Status (afterParseError c perr) StatusBadRequest) (BodyValidation v) db)
     ∧ (ValidateStructAdd req = None →
        res_db (rest.AddTable t c db) = (usecases.AddTable (rest.service t) db req).1
        ∧ ((usecases.AddTable (rest.service t) db req).2 = None →
           statusOf (rest.AddTable t c db) = StatusOK
           ∧ bodyOf (rest.AddTable t c db)
             = BodyMap {[ "message" := "Table added successfully" ]})))
  ∧ (∀ req perr, BodyParserEdit c = (req, Some perr) →
     (∀ v, ValidateStructEdit req = Some v →
        rest.Edit t c db
        = JSON (Status (afterParseError c perr) StatusBadRequest) (BodyValidation v) db)
     ∧ (ValidateStructEdit req = None →
        res_db (rest.Edit t c db) = (usecases.EditTable (rest.service t) db req).1
        ∧ ((usecases.EditTable (rest.service t) db req).2 = None →
           statusOf (rest.Edit t c db) = StatusOK
           ∧ bodyOf (rest.Edit t c db)
             = BodyMap {[ "message" := "Table edited successfully" ]})))
  ∧ (∀ req perr, BodyParserAssign c = (req, Some perr) →
     (∀ v, ValidateStructAssign req = Some v →
        rest.AssignTable t c db
        = JSON (Status (afterParseError c perr) StatusBadRequest) (BodyValidation v) db)
     ∧ (ValidateStructAssign req = None →
        res_db (rest.AssignTable t c db)
        = (usecases.AssignTable (rest.service t) db req).1
        ∧ ((usecases.AssignTable (rest.service t) db req).2.2 = None →
           statusOf (rest.AssignTable t c db) = StatusOK
           ∧ bodyOf (rest.AssignTable t c db)
             = BodyTable (usecases.AssignTable (rest.service t) db req).2.1))).
Proof.
  repeat apply conj.
  - intros req perr Hp. unfold rest.AddTable. rewrite Hp. split.
    + by intros v ->.
    + intros ->. destruct (usecases.AddTable _ db req) as [db' err]. simpl.
      split; [by destruct err as [[]|]|by intros ->].
  - intros req perr Hp. unfold rest.Edit. rewrite Hp. split.
    + by intros v ->.
    + intros ->. destruct (usecases.EditTable _ db req) as [db' err]. simpl.
      split; [by destruct err as [[]|]|by intros ->].
  - intros req perr Hp. unfold rest.AssignTable. rewrite Hp. split.
    + by intros v ->.
    + intros ->. destruct (usecases.AssignTable _ db req) as [db' [table err]]. simpl.
      split; [by destruct err as [[]|]|by intros ->].
Qed.

(** C10. [FindCustomerTable] answers every request 200, with a nil
    error and without touching the store; the body is the table the
    context holds under ["table"], and [null] when nothing is stored
    there or the value is not a table. *)
Theorem find_customer_table_always_ok t c db :
  statusOf (rest.FindCustomerTable t c db) = StatusOK
  ∧ res_err (rest.FindCustomerTable t c db) = None
  ∧ res_db (rest.FindCustomerTable t c db) = db
  ∧ (∀ p, Locals c "table" = Some (LocalTable p) →
       bodyOf (rest.FindCustomerTable t c db) = BodyTable p)
  ∧ (Locals c "table" = None → bodyOf (rest.FindCustomerTable t c db) = BodyTable None)
  ∧ (∀ v, Locals c "table" = Some v → (∀ p, v ≠ LocalTable p) →
       bodyOf (rest.FindCustomerTable t c db) = BodyTable None).
Proof.
  unfold rest.FindCustomerTable, statusOf, bodyOf. simpl.
  repeat split.
  - by intros p ->.
  - by intros ->.
  - intros v -> Hv. destruct v as [claims|p|other]; [done| |done]. by destruct (Hv p).
Qed.

(** C6, as the code has it. A successful [AddTable], [Edit] or
    [Delete] answers 200 with [{"message": text}]; a successful
    [FindAllTables], [FindTableByID], [AssignTable] or [FindCustomerTable]
    answers 200 with the resource itself; a failure of a table handler (an
    invalid id or an error of the service) answers [{"error": text}] with
    a status other than 200; a request the validator rejects is answered
    400 with the validator's value, sent as it is. So every failure
    response of the table handlers has the form [{"error": text}] on the
    wire as soon as the validator's values marshal to that form.
    [AuthMiddleware] answers a request that fails authentication 401 with
    [{"message": "Unauthorized"}], and hands every other request to the
    next handler. *)
Theorem response_envelopes t cfg (next : Handler) c db :
  envelope isMessage
    (match ValidateStructAdd (BodyParserAdd c).1 with
     | Some v => Rejected v
     | None => outcomeOf (usecases.AddTable (rest.service t) db (BodyParserAdd c).1).2
     end)
    (rest.AddTable t c db)
  ∧ envelope isMessage
      (match ValidateStructEdit (BodyParserEdit c).1 with
       | Some v => Rejected v
       | None => outcomeOf (usecases.EditTable (rest.service t) db (BodyParserEdit c).1).2
       end)
      (rest.Edit t c db)
  ∧ envelope isMessage
      (match ValidateUUID (Params c "id") with
       | inr _ => Failed
       | inl id => outcomeOf (usecases.DeleteTable (rest.service t) db id).2
       end)
      (rest.Delete t c db)
  ∧ envelope isTables
      (outcomeOf (usecases.FindAllTables (rest.service t) db).2.2)
      (rest.FindAllTables t c db)
  ∧ envelope isTable
      (match ValidateUUID (Params c "id") with
       | inr _ => Failed
       | inl id => outcomeOf (usecases.FindTableByID (rest.service t) db id).2.2
       end)
      (rest.FindTableByID t c db)
  ∧ envelope isTable
      (match ValidateStructAssign (BodyParserAssign c).1 with
       | Some v => Rejected v
       | None =>
           outcomeOf (usecases.AssignTable (rest.service t) db (BodyParserAssign c).1).2.2
       end)
      (rest.AssignTable t c db)
  ∧ envelope isTable Succeeded (rest.FindCustomerTable t c db)
  ∧ (∀ render : ValidationErrors → Body,
       (∀ v, isError (render v)) →
       Forall (λ h, statusOf (h t c db) ≠ StatusOK →
                    isError (sent render (bodyOf (h t c db))))
              tableHandlers)
  ∧ ((authFails cfg c
      ∧ middleware.AuthMiddleware cfg next c db = unauthorized c db
      ∧ statusOf (middleware.AuthMiddleware cfg next c db) = StatusUnauthorized
      ∧ bodyOf (middleware.AuthMiddleware cfg next c db)
        = BodyMap {[ "message" := "Unauthorized" ]})
     ∨ (¬ authFails cfg c
        ∧ ∃ tok, middleware.AuthMiddleware cfg next c db
                 = next (countNext (setLocals c "user" (LocalClaims (Claims tok)))) db)).
Proof.
  unfold envelope, outcomeOf, isMessage, isError, isTable, isTables, statusOf, bodyOf.
  repeat apply conj.
  - unfold rest.AddTable. destruct (BodyParserAdd c) as [req perr]. simpl.
    destruct (ValidateStructAdd req); [done|].
    destruct (usecases.AddTable _ db req) as [db' [[]|]]; simpl; split; eauto; done.
  - unfold rest.Edit. destruct (BodyParserEdit c) as [req perr]. simpl.
    destruct (ValidateStructEdit req); [done|].
    destruct (usecases.EditTable _ db req) as [db' [[]|]]; simpl; split; eauto; done.
  - unfold rest.Delete. destruct (ValidateUUID _); [|split; eauto; done].
    destruct (usecases.DeleteTable _ db _) as [db' [[]|]]; simpl; split; eauto; done.
  - unfold rest.FindAllTables.
    destruct (usecases.FindAllTables _ db) as [db' [tables [err|]]]; simpl;
      split; eauto; done.
  - unfold rest.FindTableByID. destruct (ValidateUUID _); [|split; eauto; done].
    destruct (usecases.FindTableByID _ db _) as [db' [table [[]|]]]; simpl;
      split; eauto; done.
  - unfold rest.AssignTable. destruct (BodyParserAssign c) as [req perr]. simpl.
    destruct (ValidateStructAssign req); [done|].
    destruct (usecases.AssignTable _ db req) as [db' [table [[]|]]]; simpl;
      split; eauto; done.
  - done.
  - by eexists.
  - intros render Hrender. unfold tableHandlers, sent.
    repeat apply Forall_cons_2; [..|apply Forall_nil_2]; cbv beta.
    + unfold rest.AddTable. destruct (BodyParserAdd c) as [req perr].
      destruct (ValidateStructAdd req); [intros _; apply Hrender|].
      destruct (usecases.AddTable _ db req) as [db' [[]|]]; simpl; intros Hs;
        first [done | by eexists].
    + unfold rest.FindAllTables.
      destruct (usecases.FindAllTables _ db) as [db' [tables [err|]]]; simpl; intros Hs;
        first [done | by eexists].
    + unfold rest.FindTableByID. destruct (ValidateUUID _); [|intros _; by eexists].
      destruct (usecases.FindTableByID _ db _) as [db' [table [[]|]]]; simpl; intros Hs;
        first [done | by eexists].
    + by intros Hs.
    + unfold rest.Edit. destruct (BodyParserEdit c) as [req perr].
      destruct (ValidateStructEdit req); [intros _; apply Hrender|].
      destruct (usecases.EditTable _ db req) as [db' [[]|]]; simpl; intros Hs;
        first [done | by eexists].
    + unfold rest.Delete. destruct (ValidateUUID _); [|intros _; by eexists].
      destruct (usecases.DeleteTable _ db _) as [db' [[]|]]; simpl; intros Hs;
        first [done | by eexists].
    + unfold rest.AssignTable. destruct (BodyParserAssign c) as [req perr].
      destruct (ValidateStructAssign req); [intros _; apply Hrender|].
      destruct (usecases.AssignTable _ db req) as [db' [table [[]|]]]; simpl; intros Hs;
        first [done | by eexists].
  - destruct (strings_.HasPrefix (Get c "Authorization") "Bearer ") eqn:Hpre.
    + destruct (jwt_Parse (strings_.TrimPrefix (Get c "Authorization") "Bearer ")
                  (JWTSecret cfg)) as [tok0 err|tok] eqn:Hp.
      * assert (Hf : authFails cfg c) by (right; right; left; by exists tok0, err).
        left. by rewrite (auth_rejects cfg next c db Hf).
      * destruct (Valid tok) eqn:Hv.
        -- right. split.
           ++ intros [Hnone | [Hno | [(tok' & err & Hp') | (tok' & Hp' & Hv')]]].
              ** unfold Get in Hpre. by rewrite Hnone in Hpre.
              ** congruence.
              ** congruence.
              ** congruence.
           ++ exists tok. unfold middleware.AuthMiddleware. by rewrite Hpre, Hp, Hv.
        -- assert (Hf : authFails cfg c) by (right; right; right; by exists tok).
           left. by rewrite (auth_rejects cfg next c db Hf).
    + assert (Hf : authFails cfg c) by (right; by left).
      left. by rewrite (auth_rejects cfg next c db Hf).
Qed.

End RestProperties.

(** ** The routes of [main] *)

Section RouteProperties.
Context `{Externals}.
Import middleware main.

Lemma serve_behind_cors w c db :
  HasPrefix (reqPath c) "/manage/tables" = true →
  serve w behindCors c db
  = AuthMiddleware (cfg w)
      (RoleMiddleware [models.Employee; models.Manager] (serve w manageRoutes)) c db.
Proof.
  intros Hp. apply HasPrefix_inv in Hp as [rest Hp].
  destruct c as [m pa hs ps b ls st bd n]. simpl in Hp. subst pa.
  unfold behindCors, manageRoutes, routes. cbn [List.tl List.skipn].
  cbn -[AuthMiddleware RoleMiddleware String.eqb].
  by repeat (destruct (String.eqb _ m); cbn -[AuthMiddleware RoleMiddleware String.eqb]).
Qed.

Lemma manageRoutes_eq :
  manageRoutes
  = [ mkRoute false "GET" "/manage/tables" [tableHandler_FindAllTables];
      mkRoute false "GET" "/manage/tables/:id" [tableHandler_FindTableByID];
      mkRoute false "POST" "/manage/tables" [tableHandler_AddTable];
      mkRoute false "PUT" "/manage/tables" [tableHandler_Edit];
      mkRoute false "DELETE" "/manage/tables/:id" [tableHandler_Delete];
      mkRoute false "GET" "/manage/categories" [categoryHandler_FindAllCategories];
      mkRoute false "GET" "/manage/categories/:id" [categoryHandler_FindCategoryByID];
      mkRoute false "POST" "/manage/categories" [categoryHandler_AddCategory];
      mkRoute false "GET" "/manage/menus" [menuHandler_FindAll];
      mkRoute false "GET" "/manage/menus/:id" [menuHandler_FindByID];
      mkRoute false "POST" "/manage/menus" [menuHandler_Create] ].
Proof. reflexivity. Qed.

Lemma segments_tables_id i :
  segments i = [i] → segments ("/manage/tables/" +:+ i) = [""; "manage"; "tables"; i].
Proof.
  unfold segments. intros Hi.
  cbv beta iota fix delta [String.append]. simpl. by rewrite Hi.
Qed.

(** Serving from the group's routes, once the method and the segments of
    the path are known. *)
Ltac run_routes Hm Hs :=
  rewrite manageRoutes_eq; cbn [serve]; unfold matchRoute;
  cbn [r_use r_method r_path r_handlers]; rewrite Hm, Hs;
  cbn -[rest.FindAllTables rest.FindTableByID rest.AddTable rest.Edit rest.Delete].

Lemma manage_routes_fixed_path w c db :
  reqPath c = "/manage/tables" →
  (reqMethod c = "GET" →
   serve w manageRoutes c db = rest.FindAllTables (tableHandler w) (setParams c ∅) db)
  ∧ (reqMethod c = "POST" →
     serve w manageRoutes c db = rest.AddTable (tableHandler w) (setParams c ∅) db)
  ∧ (reqMethod c = "PUT" →
     serve w manageRoutes c db = rest.Edit (tableHandler w) (setParams c ∅) db).
Proof.
  intros Hp.
  assert (Hs : segments (reqPath c) = [""; "manage"; "tables"]) by by rewrite Hp.
  repeat split; intros Hm; by run_routes Hm Hs.
Qed.

Lemma manage_routes_id_path w c db i :
  reqPath c = "/manage/tables/" +:+ i →
  segments i = [i] → i ≠ "" →
  (reqMethod c = "GET" →
   serve w manageRoutes c db
   = rest.FindTableByID (tableHandler w) (setParams c {[ "id" := i ]}) db)
  ∧ (reqMethod c = "DELETE" →
     serve w manageRoutes c db
     = rest.Delete (tableHandler w) (setParams c {[ "id" := i ]}) db).
Proof.
  intros Hp Hi Hne.
  assert (Hs : segments (reqPath c) = [""; "manage"; "tables"; i])
    by (rewrite Hp; by apply segments_tables_id).
  apply String.eqb_neq in Hne.
  split; intros Hm; run_routes Hm Hs; rewrite Hne; by rewrite insert_empty.
Qed.

(** The response of the role check to a caller without a required
    role. *)
Lemma role_rejects roles (next : Handler) c db claims :
  Locals c "user" = Some (LocalClaims claims) →
  (claims !! "role" = None ∨ ∃ role, claims !! "role" = Some role ∧ role ∉ roles) →
  RoleMiddleware roles next c db
  = JSON (Status c StatusForbidden) (BodyMap {[ "error" := "Forbidden" ]}) db.
Proof.
  intros Hu Hr. unfold RoleMiddleware. rewrite Hu.
  destruct Hr as [-> | (role & -> & Hnot)]; [done|].
  by rewrite bool_decide_eq_false_2.
Qed.

Lemma role_accepts roles (next : Handler) c db claims role :
  Locals c "user" = Some (LocalClaims claims) →
  claims !! "role" = Some role → role ∈ roles →
  RoleMiddleware roles next c db = next (countNext c) db.
Proof.
  intros Hu Hr Hin. unfold RoleMiddleware. rewrite Hu, Hr.
  by rewrite bool_decide_eq_true_2.
Qed.

(** C7. Every request under [/manage/tables] goes through
    [AuthMiddleware] and then the role check for Employee and Manager
    before any route of the group is tried. With a valid token whose role
    is Employee or Manager the request reaches the routes of the group,
    with the claims stored and both [c.Next()] calls made, and there the
    five table routes run their handlers. With a valid token whose role
    is absent or any other (Guest, say) the answer is 403, written by the
    role check: the routes of the group are not tried, the only
    [c.Next()] call is the one of [AuthMiddleware], and the store is
    untouched. *)
Theorem manage_tables_role_gate w c db tokenStr tok :
  HasPrefix (reqPath c) "/manage/tables" = true →
  Get c "Authorization" = "Bearer " +:+ tokenStr →
  jwt_Parse tokenStr (JWTSecret (cfg w)) = ParseOk tok →
  Valid tok = true →
  let c1 := countNext (setLocals c "user" (LocalClaims (Claims tok))) in
  (∀ role, Claims tok !! "role" = Some role →
     role = models.Employee ∨ role = models.Manager →
     serve w behindCors c db = serve w manageRoutes (countNext c1) db
     ∧ (reqPath c = "/manage/tables" → reqMethod c = "GET" →
        serve w behindCors c db
        = rest.FindAllTables (tableHandler w) (setParams (countNext c1) ∅) db)
     ∧ (reqPath c = "/manage/tables" → reqMethod c = "POST" →
        serve w behindCors c db
        = rest.AddTable (tableHandler w) (setParams (countNext c1) ∅) db)
     ∧ (reqPath c = "/manage/tables" → reqMethod c = "PUT" →
        serve w behindCors c db
        = rest.Edit (tableHandler w) (setParams (countNext c1) ∅) db)
     ∧ (∀ i, reqPath c = "/manage/tables/" +:+ i → segments i = [i] → i ≠ "" →
        reqMethod c = "GET" →
        serve w behindCors c db
        = rest.FindTableByID (tableHandler w)
            (setParams (countNext c1) {[ "id" := i ]}) db)
     ∧ (∀ i, reqPath c = "/manage/tables/" +:+ i → segments i = [i] → i ≠ "" →
        reqMethod c = "DELETE" →
        serve w behindCors c db
        = rest.Delete (tableHandler w)
            (setParams (countNext c1) {[ "id" := i ]}) db))
  ∧ ((Claims tok !! "role" = None
      ∨ ∃ role, Claims tok !! "role" = Some role
                ∧ role ≠ models.Employee ∧ role ≠ models.Manager) →
     serve w behindCors c db
     = JSON (Status c1 StatusForbidden) (BodyMap {[ "error" := "Forbidden" ]}) db
     ∧ statusOf (serve w behindCors c db) = StatusForbidden
     ∧ nextCalls (res_ctx (serve w behindCors c db)) = S (nextCalls c)
     ∧ res_db (serve w behindCors c db) = db).
Proof.
  intros Hpre Hh Hp Hv c1.
  rewrite (serve_behind_cors w c db Hpre), (auth_accepts _ _ _ _ _ _ Hh Hp Hv).
  fold c1.
  assert (Hu : Locals c1 "user" = Some (LocalClaims (Claims tok)))
    by apply lookup_insert_eq.
  split.
  - intros role Hr Hin.
    rewrite (role_accepts _ _ _ _ _ role Hu Hr) by (rewrite !elem_of_cons; tauto).
    split; [done|].
    repeat split.
    + intros Hpath Hm. by apply manage_routes_fixed_path.
    + intros Hpath Hm. by apply manage_routes_fixed_path.
    + intros Hpath Hm. by apply manage_routes_fixed_path.
    + intros i Hpath Hi Hne Hm. by apply manage_routes_id_path.
    + intros i Hpath Hi Hne Hm. by apply manage_routes_id_path.
  - intros Hr. rewrite (role_rejects _ _ _ _ _ Hu); [done|].
    destruct Hr as [Hr | (role & Hr & Hne1 & Hne2)]; [by left|].
    right. exists role. split; [done|].
    rewrite !not_elem_of_cons. repeat split; [done..|apply not_elem_of_nil].
Qed.

(** C3, what [main] registers. No route of [main] has the path
    [/manage/tables/assign] or [/customer/tables], and no route runs
    [AssignTable] or [FindCustomerTable]: the table routes are the five
    of the [/manage] group. A [POST /manage/tables/assign] that passed
    the gate of the group, and any request to [/customer/tables], match
    no route and end in the router's not-found handler. *)
Theorem assign_and_customer_routes_absent :
  Forall (λ r, (r_path r ≠ "/manage/tables/assign")
               ∧ (r_path r ≠ "/customer/tables")
               ∧ (tableHandler_AssignTable ∉ r_handlers r)
               ∧ (tableHandler_FindCustomerTable ∉ r_handlers r)) routes
  ∧ List.filter (λ r, HasPrefix (r_path r) "/manage/tables") routes
    = [ mkRoute false "GET" "/manage/tables" [tableHandler_FindAllTables];
        mkRoute false "GET" "/manage/tables/:id" [tableHandler_FindTableByID];
        mkRoute false "POST" "/manage/tables" [tableHandler_AddTable];
        mkRoute false "PUT" "/manage/tables" [tableHandler_Edit];
        mkRoute false "DELETE" "/manage/tables/:id" [tableHandler_Delete] ]
  ∧ List.filter (λ r, HasPrefix (r_path r) "/customer") routes = []
  ∧ (∀ w c db, reqMethod c = "POST" → reqPath c = "/manage/tables/assign" →
       serve w manageRoutes c db = notFound w c db)
  ∧ (∀ w c db, reqPath c = "/customer/tables" →
       serve w behindCors c db = notFound w c db).
Proof.
  split; [|split; [reflexivity|split; [reflexivity|split]]].
  - unfold routes. cbn -[String.append].
    repeat apply Forall_cons_2; [..|apply Forall_nil_2];
      cbv beta; cbn [r_path r_handlers];
      rewrite ?not_elem_of_cons; repeat split;
      first [discriminate | apply not_elem_of_nil].
  - intros w c db Hm Hp.
    assert (Hs : segments (reqPath c) = [""; "manage"; "tables"; "assign"])
      by by rewrite Hp.
    by run_routes Hm Hs.
  - intros w c db Hp.
    destruct c as [m pa hs ps b ls st bd n]. simpl in Hp. subst pa.
    unfold behindCors, routes. cbn [List.tl].
    cbn -[AuthMiddleware RoleMiddleware String.eqb].
    by repeat (destruct (String.eqb _ m);
               cbn -[AuthMiddleware RoleMiddleware String.eqb]).
Qed.

End RouteProperties.

(** ** The table handler over the table service of the spec *)

Section TableSpecProperties.
Context {E : @Externals tablespec.domain}.
Variables newID newCode : list tablespec.Table → string.
Import tablespec.

Lemma nameTaken_true n (store : list Table) :
  nameTaken n store = true ↔ ∃ t, t ∈ store ∧ name t = n.
Proof.
  unfold nameTaken. rewrite existsb_exists. split.
  - intros (t & Hin & Heq). exists t. split; [by apply list_elem_of_In|].
    by apply String.eqb_eq.
  - intros (t & Hin & Heq). exists t. split; [by apply list_elem_of_In|].
    by apply String.eqb_eq.
Qed.

Lemma nameTaken_false n (store : list Table) :
  nameTaken n store = false ↔ ∀ t, t ∈ store → name t ≠ n.
Proof.
  rewrite <- not_true_iff_false, nameTaken_true. split.
  - intros Hno t Hin Heq. apply Hno. by exists t.
  - intros Hall (t & Hin & Heq). by apply (Hall t).
Qed.

Lemma nameTakenByOther_true i n (store : list Table) :
  nameTakenByOther i n store = true ↔ ∃ t, t ∈ store ∧ id t ≠ i ∧ name t = n.
Proof.
  unfold nameTakenByOther. rewrite existsb_exists. split.
  - intros (t & Hin & Heq). apply andb_true_iff in Heq as [Hid Hn].
    exists t. split; [by apply list_elem_of_In|].
    split; [|by apply String.eqb_eq].
    apply negb_true_iff in Hid. by apply String.eqb_neq.
  - intros (t & Hin & Hid & Hn). exists t. split; [by apply list_elem_of_In|].
    apply andb_true_iff. split; [|by apply String.eqb_eq].
    apply negb_true_iff. by apply String.eqb_neq.
Qed.

Lemma nameTakenByOther_false i n (store : list Table) :
  nameTakenByOther i n store = false ↔ ∀ t, t ∈ store → id t ≠ i → name t ≠ n.
Proof.
  rewrite <- not_true_iff_false, nameTakenByOther_true. split.
  - intros Hno t Hin Hid Hn. apply Hno. by exists t.
  - intros Hall (t & Hin & Hid & Hn). by apply (Hall t).
Qed.

(** C5. With the table service of the spec behind the handler, and a
    body that parses and passes validation: when a live table has the
    proposed name, letter for letter, the service fails with
    [ErrDuplicatedTableName], the store is unchanged and [AddTable]
    answers 400 with "Table name already exists"; when no live table has
    it, the table is added, [Free] and without a code, and the answer
    is 200 with "Table added successfully". The same check applies when
    [Edit] is called on a live table: if another live table has the
    proposed name the service fails with the same error, the store is
    unchanged and [Edit], which has no case for that error, answers it
    through its default branch, 500 with the text of the error; if no
    other live table has it the edit is applied and answered 200. *)
Theorem add_table_unique_name c (store : list Table) req :
  BodyParserAdd c = (Some req, None) →
  ValidateStructAdd (Some req) = None →
  let t := rest.NewTableHandler (NewTableService newID newCode) in
  ((∃ t0, t0 ∈ store ∧ name t0 = add_name req) →
     AddTable newID store (Some req) = (store, Some ErrDuplicatedTableName)
     ∧ statusOf (rest.AddTable t c store) = StatusBadRequest
     ∧ bodyOf (rest.AddTable t c store)
       = BodyMap {[ "error" := "Table name already exists" ]}
     ∧ res_db (rest.AddTable t c store) = store)
  ∧ ((∀ t0, t0 ∈ store → name t0 ≠ add_name req) →
     statusOf (rest.AddTable t c store) = StatusOK
     ∧ bodyOf (rest.AddTable t c store)
       = BodyMap {[ "message" := "Table added successfully" ]}
     ∧ res_db (rest.AddTable t c store)
       = store ++ [mkTable (newID store) (add_name req) (add_capacity req) Free ""])
  ∧ (∀ ce ereq target,
       BodyParserEdit ce = (Some ereq, None) →
       ValidateStructEdit (Some ereq) = None →
       findByID (edit_id ereq) store = Some target →
       ((∃ other, other ∈ store ∧ id other ≠ edit_id ereq
                  ∧ name other = edit_name ereq) →
          EditTable store (Some ereq) = (store, Some ErrDuplicatedTableName)
          ∧ statusOf (rest.Edit t ce store) = StatusInternalServerError
          ∧ bodyOf (rest.Edit t ce store)
            = BodyMap {[ "error" := sentinelText ErrDuplicatedTableName ]}
          ∧ res_db (rest.Edit t ce store) = store)
       ∧ ((∀ other, other ∈ store → id other ≠ edit_id ereq →
             name other ≠ edit_name ereq) →
          statusOf (rest.Edit t ce store) = StatusOK
          ∧ bodyOf (rest.Edit t ce store)
            = BodyMap {[ "message" := "Table edited successfully" ]}
          ∧ res_db (rest.Edit t ce store)
            = replace (mkTable (id target) (edit_name ereq) (edit_capacity ereq)
                               (status target) (accessCode target)) store)).
Proof.
  intros Hp Hv t. split; [|split].
  - intros Ht%nameTaken_true. unfold rest.AddTable. rewrite Hp, Hv.
    cbn [rest.service t rest.NewTableHandler NewTableService usecases.AddTable].
    unfold AddTable. by rewrite Ht.
  - intros Ht%nameTaken_false. unfold rest.AddTable. rewrite Hp, Hv.
    cbn [rest.service t rest.NewTableHandler NewTableService usecases.AddTable].
    unfold AddTable. by rewrite Ht.
  - intros ce ereq target Hpe Hve Hf. unfold rest.Edit. rewrite Hpe, Hve.
    cbn [rest.service t rest.NewTableHandler NewTableService usecases.EditTable].
    unfold EditTable. rewrite Hf. split.
    + intros Ht%nameTakenByOther_true. by rewrite Ht.
    + intros Ht%nameTakenByOther_false. by rewrite Ht.
Qed.

(** [Edit] has no case for [ErrDuplicatedTableName]: the error of the
    uniqueness check at edit time leaves through the default branch. *)
Remark edit_duplicate_name_is_default_branch c (store : list Table) req :
  BodyParserEdit c = (Some req, None) →
  ValidateStructEdit (Some req) = None →
  EditTable store (Some req) = (store, Some ErrDuplicatedTableName) →
  statusOf (rest.Edit (rest.NewTableHandler (NewTableService newID newCode)) c store)
  = StatusInternalServerError.
Proof.
  intros Hp Hv He. unfold rest.Edit. rewrite Hp, Hv.
  cbn [rest.service rest.NewTableHandler NewTableService usecases.EditTable].
  by rewrite He.
Qed.

End TableSpecProperties.

(** * The theorems on concrete requests *)

Section Examples.
Import (hints) tablespec example.
Import example.

(** C6 as the spec words it fails on a request without an
    [Authorization] header: the answer is a failure, 401, and its body is
    [{"message": "Unauthorized"}], which is not [{"error": text}] for any
    text. *)
Lemma auth_rejection_is_not_error_envelope :
  statusOf (middleware.AuthMiddleware config pass
              (request "GET" "/manage/tables" ∅ "") store) = StatusUnauthorized
  ∧ ¬ isError (bodyOf (middleware.AuthMiddleware config pass
                         (request "GET" "/manage/tables" ∅ "") store)).
Proof.
  split; [reflexivity|].
  intros [text Ht]. vm_compute in Ht. discriminate Ht.
Qed.

Lemma response_envelopes_witness :
  (∀ v, isError (renderErrors v))
  ∧ ValidateStructAdd (BodyParserAdd (request "POST" "/manage/tables" ∅ " ")).1
    = Some ["name is required"]
  ∧ statusOf (rest.AddTable handler (request "POST" "/manage/tables" ∅ " ") store)
    ≠ StatusOK
  ∧ isError (sent renderErrors
               (bodyOf (rest.AddTable handler (request "POST" "/manage/tables" ∅ " ")
                          store)))
  ∧ bodyOf (middleware.AuthMiddleware config pass
              (request "POST" "/manage/tables" ∅ " ") store)
    = BodyMap {[ "message" := "Unauthorized" ]}.
Proof.
  assert (Hr : ∀ v, isError (renderErrors v)) by (intros v; by eexists).
  assert (Hs : statusOf (rest.AddTable handler (request "POST" "/manage/tables" ∅ " ")
                           store) ≠ StatusOK) by discriminate.
  split; [exact Hr|]. split; [reflexivity|]. split; [exact Hs|].
  destruct (response_envelopes handler config pass
              (request "POST" "/manage/tables" ∅ " ") store)
    as (_ & _ & _ & _ & _ & _ & _ & Hwire & Hauth).
  split.
  - specialize (Hwire renderErrors Hr). unfold tableHandlers in Hwire.
    apply Forall_cons in Hwire as [Hadd _]. exact (Hadd Hs).
  - destruct Hauth as [(_ & _ & _ & Hbody) | (Hpass & _)]; [exact Hbody|].
    destruct Hpass. left. reflexivity.
Defined.

Lemma auth_failure_is_unauthenticated_witness :
  authFails config (request "GET" "/manage/tables" ∅ "")
  ∧ authFails config (request "GET" "/manage/tables" {[ "Authorization" := "Basic abc" ]} "")
  ∧ authFails config (request "GET" "/manage/tables" (bearer "forged") "")
  ∧ authFails config (request "GET" "/manage/tables" (bearer "expired") "")
  ∧ statusOf (middleware.AuthMiddleware config
                (middleware.RoleMiddleware [models.Employee; models.Manager] pass)
                (request "GET" "/manage/tables" (bearer "forged") "") store)
    = StatusUnauthorized.
Proof.
  assert (H4 : authFails config (request "GET" "/manage/tables" (bearer "expired") "")).
  { right; right; right. exists (mkToken false ∅). split; reflexivity. }
  assert (H3 : authFails config (request "GET" "/manage/tables" (bearer "forged") "")).
  { right; right; left. exists None, (ErrOther "signature is invalid"). reflexivity. }
  split; [left; reflexivity|].
  split; [right; left; reflexivity|].
  split; [exact H3|]. split; [exact H4|].
  apply (auth_failure_is_unauthenticated config pass _ store H3).
Defined.

Lemma auth_success_stores_claims_witness :
  Get (request "GET" "/manage/tables" (bearer "s3cret:Employee") "") "Authorization"
  = "Bearer " +:+ "s3cret:Employee"
  ∧ locals (res_ctx (middleware.AuthMiddleware config pass
                       (request "GET" "/manage/tables" (bearer "s3cret:Employee") "")
                       store))
    = {[ "user" := LocalClaims {[ "role" := "Employee" ]} ]}
  ∧ statusOf (middleware.AuthMiddleware config pass
                (request "GET" "/manage/tables" (bearer "expired") "") store)
    = StatusUnauthorized.
Proof.
  split; [reflexivity|]. split.
  - destruct (auth_success_stores_claims config pass
                (request "GET" "/manage/tables" (bearer "s3cret:Employee") "")
                store "s3cret:Employee" eq_refl) as [Hok _].
    destruct (Hok (mkToken true {[ "role" := "Employee" ]}) eq_refl eq_refl)
      as (Hrun & _).
    rewrite Hrun. reflexivity.
  - destruct (auth_success_stores_claims config pass
                (request "GET" "/manage/tables" (bearer "expired") "")
                store "expired" eq_refl) as [_ Hbad].
    apply Hbad. right. exists (mkToken false ∅). split; reflexivity.
Defined.

Lemma assign_table_responses_witness :
  ValidateStructAssign (BodyParserAssign (request "POST" "/manage/tables/assign" ∅ "t9")).1
  = None
  ∧ statusOf (rest.AssignTable handler (request "POST" "/manage/tables/assign" ∅ "t9") store)
    = StatusBadRequest
  ∧ bodyOf (rest.AssignTable handler (request "POST" "/manage/tables/assign" ∅ "t2") store)
    = BodyMap {[ "error" := "Table already assigned" ]}
  ∧ statusOf (rest.AssignTable handler (request "POST" "/manage/tables/assign" ∅ "") store)
    = StatusInternalServerError
  ∧ bodyOf (rest.AssignTable handler (request "POST" "/manage/tables/assign" ∅ "t1") store)
    = BodyTable (Some (tablespec.mkTable "t1" "T1" 4 tablespec.Occupied "c0de")).
Proof.
  assert (H9 : ValidateStructAssign
                 (BodyParserAssign (request "POST" "/manage/tables/assign" ∅ "t9")).1
               = None) by reflexivity.
  assert (H2 : ValidateStructAssign
                 (BodyParserAssign (request "POST" "/manage/tables/assign" ∅ "t2")).1
               = None) by reflexivity.
  assert (H0 : ValidateStructAssign
                 (BodyParserAssign (request "POST" "/manage/tables/assign" ∅ "")).1
               = None) by reflexivity.
  assert (H1 : ValidateStructAssign
                 (BodyParserAssign (request "POST" "/manage/tables/assign" ∅ "t1")).1
               = None) by reflexivity.
  split; [exact H9|]. repeat apply conj.
  - destruct (assign_table_responses handler _ store H9) as (_ & Hnf & _).
    apply Hnf. reflexivity.
  - destruct (assign_table_responses handler _ store H2) as (_ & _ & Hal & _).
    apply Hal. reflexivity.
  - destruct (assign_table_responses handler _ store H0) as (_ & _ & _ & Hother & _).
    apply (Hother tablespec.nilRequest); [reflexivity|discriminate|discriminate].
  - destruct (assign_table_responses handler _ store H1) as (_ & _ & _ & _ & Hok).
    apply Hok. reflexivity.
Defined.

Lemma table_not_found_status_witness :
  statusOf (rest.FindTableByID handler
              (setParams (request "GET" "/manage/tables/t9" ∅ "") {[ "id" := "t9" ]}) store)
  = StatusNotFound
  ∧ statusOf (rest.Edit handler (request "PUT" "/manage/tables" ∅ "T5") [T2])
    = StatusBadRequest
  ∧ statusOf (rest.Delete handler
                (setParams (request "DELETE" "/manage/tables/t9" ∅ "") {[ "id" := "t9" ]})
                store)
    = StatusBadRequest
  ∧ statusOf (rest.AssignTable handler (request "POST" "/manage/tables/assign" ∅ "t9") store)
    = StatusBadRequest.
Proof.
  repeat apply conj.
  - destruct (table_not_found_status handler
                (setParams (request "GET" "/manage/tables/t9" ∅ "") {[ "id" := "t9" ]})
                store) as (Hfind & _).
    apply (Hfind "t9"); reflexivity.
  - destruct (table_not_found_status handler (request "PUT" "/manage/tables" ∅ "T5") [T2])
      as (_ & Hedit & _).
    apply Hedit; reflexivity.
  - destruct (table_not_found_status handler
                (setParams (request "DELETE" "/manage/tables/t9" ∅ "") {[ "id" := "t9" ]})
                store) as (_ & _ & Hdel & _).
    apply (Hdel "t9"); reflexivity.
  - destruct (table_not_found_status handler
                (request "POST" "/manage/tables/assign" ∅ "t9") store)
      as (_ & _ & _ & Hassign).
    apply Hassign; reflexivity.
Defined.

Lemma parse_error_falls_through_witness :
  BodyParserAdd (request "POST" "/manage/tables" ∅ "") = (None, Some parseError)
  ∧ ValidateStructAdd None = None
  ∧ bodyOf (rest.AddTable handler (request "POST" "/manage/tables" ∅ "") store)
    = BodyMap {[ "error" := "nil request" ]}
  ∧ statusOf (rest.AddTable (rest.NewTableHandler lenient)
                (request "POST" "/manage/tables" ∅ "") store)
    = StatusOK
  ∧ bodyOf (rest.Edit handler (request "PUT" "/manage/tables" ∅ "") store)
    = BodyValidation ["request is required"]
  ∧ statusOf (rest.AssignTable (rest.NewTableHandler lenient)
                (request "POST" "/manage/tables/assign" ∅ "") store)
    = StatusOK.
Proof.
  assert (Ha : BodyParserAdd (request "POST" "/manage/tables" ∅ "")
               = (None, Some parseError)) by reflexivity.
  assert (He : BodyParserEdit (request "PUT" "/manage/tables" ∅ "")
               = (None, Some parseError)) by reflexivity.
  assert (Hs : BodyParserAssign (request "POST" "/manage/tables/assign" ∅ "")
               = (None, Some parseError)) by reflexivity.
  split; [exact Ha|]. split; [reflexivity|]. repeat apply conj.
  - reflexivity.
  - destruct (parse_error_falls_through (rest.NewTableHandler lenient)
                (request "POST" "/manage/tables" ∅ "") store) as (Hadd & _ & _).
    destruct (Hadd None parseError Ha) as (_ & Hpass).
    destruct (Hpass eq_refl) as (_ & Hok). apply Hok. reflexivity.
  - destruct (parse_error_falls_through handler
                (request "PUT" "/manage/tables" ∅ "") store) as (_ & Hedit & _).
    destruct (Hedit None parseError He) as (Hrej & _).
    rewrite (Hrej ["request is required"] eq_refl). reflexivity.
  - destruct (parse_error_falls_through (rest.NewTableHandler lenient)
                (request "POST" "/manage/tables/assign" ∅ "") store) as (_ & _ & Hasg).
    destruct (Hasg None parseError Hs) as (_ & Hpass).
    destruct (Hpass eq_refl) as (_ & Hok). apply Hok. reflexivity.
Defined.

Lemma find_customer_table_always_ok_witness :
  Locals (setLocals (request "GET" "/customer/tables" ∅ "") "table" boundTable)
         "table"
  = Some boundTable
  ∧ bodyOf (rest.FindCustomerTable handler
              (setLocals (request "GET" "/customer/tables" ∅ "") "table"
                         boundTable) store)
    = BodyTable (Some T2)
  ∧ bodyOf (rest.FindCustomerTable handler (request "GET" "/customer/tables" ∅ "") store)
    = BodyTable None
  ∧ bodyOf (rest.FindCustomerTable handler
              (setLocals (request "GET" "/customer/tables" ∅ "") "table"
                         notATable) store)
    = BodyTable None
  ∧ statusOf (rest.FindCustomerTable handler (request "GET" "/customer/tables" ∅ "") store)
    = StatusOK.
Proof.
  split; [reflexivity|]. repeat apply conj.
  - destruct (find_customer_table_always_ok handler
                (setLocals (request "GET" "/customer/tables" ∅ "") "table"
                           boundTable) store) as (_ & _ & _ & Htab & _).
    apply Htab. reflexivity.
  - destruct (find_customer_table_always_ok handler
                (request "GET" "/customer/tables" ∅ "") store)
      as (_ & _ & _ & _ & Hnone & _).
    apply Hnone. reflexivity.
  - destruct (find_customer_table_always_ok handler
                (setLocals (request "GET" "/customer/tables" ∅ "") "table"
                           notATable) store) as (_ & _ & _ & _ & _ & Hother).
    apply (Hother notATable); [reflexivity|discriminate].
  - apply (find_customer_table_always_ok handler
             (request "GET" "/customer/tables" ∅ "") store).
Defined.

Lemma add_table_unique_name_witness :
  BodyParserAdd (request "POST" "/manage/tables" ∅ "T1")
  = (Some (tablespec.mkAddTableReq "T1" 4), None)
  ∧ ValidateStructAdd (Some (tablespec.mkAddTableReq "T1" 4)) = None
  ∧ bodyOf (rest.AddTable (rest.NewTableHandler (tablespec.NewTableService newID newCode))
              (request "POST" "/manage/tables" ∅ "T1") [T1])
    = BodyMap {[ "error" := "Table name already exists" ]}
  ∧ res_db (rest.AddTable (rest.NewTableHandler (tablespec.NewTableService newID newCode))
              (request "POST" "/manage/tables" ∅ "T2") [T1])
    = [T1; tablespec.mkTable "t2" "T2" 4 tablespec.Free ""]
  ∧ BodyParserEdit (request "PUT" "/manage/tables" ∅ "T2")
    = (Some (tablespec.mkEditTableReq "t1" "T2" 4), None)
  ∧ statusOf (rest.Edit (rest.NewTableHandler (tablespec.NewTableService newID newCode))
                (request "PUT" "/manage/tables" ∅ "T2") store)
    = StatusInternalServerError
  ∧ res_db (rest.Edit (rest.NewTableHandler (tablespec.NewTableService newID newCode))
              (request "PUT" "/manage/tables" ∅ "T2") store)
    = store
  ∧ res_db (rest.Edit (rest.NewTableHandler (tablespec.NewTableService newID newCode))
              (request "PUT" "/manage/tables" ∅ "T5") store)
    = [tablespec.mkTable "t1" "T5" 4 tablespec.Free ""; T2].
Proof.
  assert (Hp1 : BodyParserAdd (request "POST" "/manage/tables" ∅ "T1")
                = (Some (tablespec.mkAddTableReq "T1" 4), None)) by reflexivity.
  assert (Hv1 : ValidateStructAdd (Some (tablespec.mkAddTableReq "T1" 4)) = None)
    by reflexivity.
  assert (Hp2 : BodyParserAdd (request "POST" "/manage/tables" ∅ "T2")
                = (Some (tablespec.mkAddTableReq "T2" 4), None)) by reflexivity.
  assert (Hv2 : ValidateStructAdd (Some (tablespec.mkAddTableReq "T2" 4)) = None)
    by reflexivity.
  assert (He2 : BodyParserEdit (request "PUT" "/manage/tables" ∅ "T2")
                = (Some (tablespec.mkEditTableReq "t1" "T2" 4), None)) by reflexivity.
  assert (Hw2 : ValidateStructEdit (Some (tablespec.mkEditTableReq "t1" "T2" 4)) = None)
    by reflexivity.
  assert (He5 : BodyParserEdit (request "PUT" "/manage/tables" ∅ "T5")
                = (Some (tablespec.mkEditTableReq "t1" "T5" 4), None)) by reflexivity.
  assert (Hw5 : ValidateStructEdit (Some (tablespec.mkEditTableReq "t1" "T5" 4)) = None)
    by reflexivity.
  assert (Hdup : ∃ other, other ∈ store ∧ tablespec.id other ≠ "t1"
                          ∧ tablespec.name other = "T2").
  { exists T2. split; [apply list_elem_of_further, list_elem_of_here|].
    split; [discriminate|reflexivity]. }
  assert (Hfree : ∀ other, other ∈ store → tablespec.id other ≠ "t1"
                           → tablespec.name other ≠ "T5").
  { intros other Hin Hid. unfold store in Hin.
    apply elem_of_cons in Hin as [-> | Hin]; [done|].
    apply list_elem_of_singleton in Hin as ->. discriminate. }
  split; [exact Hp1|]. split; [exact Hv1|]. repeat apply conj.
  - destruct (add_table_unique_name newID newCode _ [T1] _ Hp1 Hv1) as (Hadd & _).
    apply Hadd. exists T1. split; [apply list_elem_of_here|reflexivity].
  - destruct (add_table_unique_name newID newCode _ [T1] _ Hp2 Hv2) as (_ & Hfresh & _).
    destruct Hfresh as (_ & _ & Hdb); [|exact Hdb].
    intros t0 Hin. apply list_elem_of_singleton in Hin as ->. discriminate.
  - exact He2.
  - destruct (add_table_unique_name newID newCode _ store _ Hp1 Hv1) as (_ & _ & Hedit).
    destruct (Hedit _ _ T1 He2 Hw2 eq_refl) as (Hrefused & _).
    apply (Hrefused Hdup).
  - destruct (add_table_unique_name newID newCode _ store _ Hp1 Hv1) as (_ & _ & Hedit).
    destruct (Hedit _ _ T1 He2 Hw2 eq_refl) as (Hrefused & _).
    apply (Hrefused Hdup).
  - destruct (add_table_unique_name newID newCode _ store _ Hp1 Hv1) as (_ & _ & Hedit).
    destruct (Hedit _ _ T1 He5 Hw5 eq_refl) as (_ & Hdone).
    destruct (Hdone Hfree) as (_ & _ & Hdb). rewrite Hdb. reflexivity.
Defined.

Lemma manage_tables_role_gate_witness :
  HasPrefix "/manage/tables" "/manage/tables" = true
  ∧ jwt_Parse "s3cret:Employee" (JWTSecret (main.cfg wiring))
    = ParseOk (mkToken true {[ "role" := "Employee" ]})
  ∧ bodyOf (main.serve wiring behindCors
              (request "POST" "/manage/tables" (bearer "s3cret:Employee") "T3") store)
    = BodyMap {[ "message" := "Table added successfully" ]}
  ∧ statusOf (main.serve wiring behindCors
                (request "POST" "/manage/tables" (bearer "s3cret:Guest") "T3") store)
    = StatusForbidden
  ∧ res_db (main.serve wiring behindCors
              (request "POST" "/manage/tables" (bearer "s3cret:Guest") "T3") store)
    = store.
Proof.
  split; [reflexivity|]. split; [reflexivity|].
  assert (Hemp : jwt_Parse "s3cret:Employee" (JWTSecret (main.cfg wiring))
                 = ParseOk (mkToken true {[ "role" := "Employee" ]})) by reflexivity.
  assert (Hguest : jwt_Parse "s3cret:Guest" (JWTSecret (main.cfg wiring))
                   = ParseOk (mkToken true {[ "role" := "Guest" ]})) by reflexivity.
  repeat apply conj.
  - destruct (manage_tables_role_gate wiring
                (request "POST" "/manage/tables" (bearer "s3cret:Employee") "T3") store
                "s3cret:Employee" _ eq_refl eq_refl Hemp eq_refl) as (Hpass & _).
    destruct (Hpass "Employee" eq_refl (or_introl eq_refl)) as (_ & _ & Hpost & _).
    rewrite (Hpost eq_refl eq_refl). reflexivity.
  - destruct (manage_tables_role_gate wiring
                (request "POST" "/manage/tables" (bearer "s3cret:Guest") "T3") store
                "s3cret:Guest" _ eq_refl eq_refl Hguest eq_refl) as (_ & Hrej).
    apply Hrej. right. exists "Guest". repeat split; discriminate.
  - destruct (manage_tables_role_gate wiring
                (request "POST" "/manage/tables" (bearer "s3cret:Guest") "T3") store
                "s3cret:Guest" _ eq_refl eq_refl Hguest eq_refl) as (_ & Hrej).
    apply Hrej. right. exists "Guest". repeat split; discriminate.
Defined.

Lemma assign_and_customer_routes_absent_witness :
  reqMethod (request "POST" "/manage/tables/assign" (bearer "s3cret:Employee") "t1") = "POST"
  ∧ main.serve wiring manageRoutes
      (request "POST" "/manage/tables/assign" (bearer "s3cret:Employee") "t1") store
    = main.notFound wiring
        (request "POST" "/manage/tables/assign" (bearer "s3cret:Employee") "t1") store
  ∧ statusOf (main.serve wiring behindCors
                (request "GET" "/customer/tables" {[ "AccessCode" := "c0de" ]} "") store)
    = StatusNotFound.
Proof.
  split; [reflexivity|].
  destruct (assign_and_customer_routes_absent (H0 := externals))
    as (_ & _ & _ & Hassign & Hcustomer).
  split.
  - apply Hassign; reflexivity.
  - rewrite Hcustomer; reflexivity.
Defined.

End Examples.


(** * More of the table handler *)

Section HandlerOutcomes.
Context `{Externals}.
Implicit Types (t : rest.tableHandler) (c : Ctx) (db : DB).

(** X1. [AddTable], once validation passes: the store is what the service
    leaves; [ErrDuplicatedTableName] is answered 400 with "Table name
    already exists"; every other error, the other sentinels included, 500
    with the error's text; success 200 with "Table added successfully". *)
Theorem add_table_responses t c db :
  ValidateStructAdd (BodyParserAdd c).1 = None →
  let out := usecases.AddTable (rest.service t) db (BodyParserAdd c).1 in
  let r := rest.AddTable t c db in
  res_db r = out.1
  ∧ (out.2 = Some ErrDuplicatedTableName →
     statusOf r = StatusBadRequest
     ∧ bodyOf r = BodyMap {[ "error" := "Table name already exists" ]})
  ∧ (∀ err, out.2 = Some err → err ≠ ErrDuplicatedTableName →
     statusOf r = StatusInternalServerError ∧ bodyOf r = BodyMap {[ "error" := Error err ]})
  ∧ (out.2 = None →
     statusOf r = StatusOK
     ∧ bodyOf r = BodyMap {[ "message" := "Table added successfully" ]}).
Proof.
  intros Hv. unfold rest.AddTable.
  destruct (BodyParserAdd c) as [req perr]. simpl in Hv |- *. rewrite Hv.
  destruct (usecases.AddTable _ db req) as [db' err]. simpl.
  destruct err as [[]|]; repeat split; try done; intros; simplify_eq; done.
Qed.

(** X2. [FindAllTables] has no case for any error: whatever error the
    service returns, a sentinel or not, the answer is 500 with the error's
    text; without an error it is 200 with the list the service returned.
    The store is what the service leaves. *)
Theorem find_all_tables_responses t c db :
  let out := usecases.FindAllTables (rest.service t) db in
  let r := rest.FindAllTables t c db in
  res_db r = out.1
  ∧ (∀ err, out.2.2 = Some err →
     statusOf r = StatusInternalServerError ∧ bodyOf r = BodyMap {[ "error" := Error err ]})
  ∧ (out.2.2 = None → statusOf r = StatusOK ∧ bodyOf r = BodyTables out.2.1).
Proof.
  unfold rest.FindAllTables.
  destruct (usecases.FindAllTables _ db) as [db' [tables err]]. simpl.
  destruct err as [err|]; repeat split; try done; intros; simplify_eq; done.
Qed.

(** X3. [FindTableByID]: when the [id] parameter is not a UUID the answer
    is 400 "Invalid UUID" and the service is not asked, so the store is
    untouched and the answer is the same for every service. Otherwise the
    service is asked for the validated id: [ErrTableNotFound] is answered
    404, every other error 500 with its text, success 200 with the table. *)
Theorem find_table_by_id_responses t c db :
  (∀ err, ValidateUUID (Params c "id") = inr err →
     rest.FindTableByID t c db
     = JSON (Status c StatusBadRequest) (BodyMap {[ "error" := "Invalid UUID" ]}) db
     ∧ ∀ t', rest.FindTableByID t' c db = rest.FindTableByID t c db)
  ∧ (∀ id, ValidateUUID (Params c "id") = inl id →
     let out := usecases.FindTableByID (rest.service t) db id in
     let r := rest.FindTableByID t c db in
     res_db r = out.1
     ∧ (out.2.2 = Some ErrTableNotFound →
        statusOf r = StatusNotFound ∧ bodyOf r = BodyMap {[ "error" := "Table not found" ]})
     ∧ (∀ err, out.2.2 = Some err → err ≠ ErrTableNotFound →
        statusOf r = StatusInternalServerError
        ∧ bodyOf r = BodyMap {[ "error" := Error err ]})
     ∧ (out.2.2 = None → statusOf r = StatusOK ∧ bodyOf r = BodyTable out.2.1)).
Proof.
  split.
  - intros err Hid. unfold rest.FindTableByID. rewrite Hid. done.
  - intros id Hid. unfold rest.FindTableByID. rewrite Hid.
    destruct (usecases.FindTableByID _ db id) as [db' [table err]]. simpl.
    destruct err as [[]|]; repeat split; try done; intros; simplify_eq; done.
Qed.

(** X4. [Edit], once validation passes: the store is what the service
    leaves; [ErrTableNotFound] is answered 400 with "Table not found";
    every other error 500 with the error's text, and that includes
    [ErrDuplicatedTableName], for which [Edit] has no case; success 200
    with "Table edited successfully". *)
Theorem edit_responses t c db :
  ValidateStructEdit (BodyParserEdit c).1 = None →
  let out := usecases.EditTable (rest.service t) db (BodyParserEdit c).1 in
  let r := rest.Edit t c db in
  res_db r = out.1
  ∧ (out.2 = Some ErrTableNotFound →
     statusOf r = StatusBadRequest ∧ bodyOf r = BodyMap {[ "error" := "Table not found" ]})
  ∧ (∀ err, out.2 = Some err → err ≠ ErrTableNotFound →
     statusOf r = StatusInternalServerError ∧ bodyOf r = BodyMap {[ "error" := Error err ]})
  ∧ (out.2 = Some ErrDuplicatedTableName →
     statusOf r = StatusInternalServerError
     ∧ bodyOf r = BodyMap {[ "error" := sentinelText ErrDuplicatedTableName ]})
  ∧ (out.2 = None →
     statusOf r = StatusOK
     ∧ bodyOf r = BodyMap {[ "message" := "Table edited successfully" ]}).
Proof.
  intros Hv. unfold rest.Edit.
  destruct (BodyParserEdit c) as [req perr]. simpl in Hv |- *. rewrite Hv.
  destruct (usecases.EditTable _ db req) as [db' err]. simpl.
  destruct err as [[]|]; repeat split; try done; intros; simplify_eq; done.
Qed.

(** X5. [Delete]: when the [id] parameter is not a UUID the answer is 400
    "Invalid UUID", the service is not asked and the store is untouched.
    Otherwise the service deletes the validated id: [ErrTableNotFound] is
    answered 400, every other error 500 with its text, success 200 with
    "Table deleted successfully"; the store is what the service leaves. *)
Theorem delete_responses t c db :
  (∀ err, ValidateUUID (Params c "id") = inr err →
     rest.Delete t c db
     = JSON (Status c StatusBadRequest) (BodyMap {[ "error" := "Invalid UUID" ]}) db
     ∧ ∀ t', rest.Delete t' c db = rest.Delete t c db)
  ∧ (∀ id, ValidateUUID (Params c "id") = inl id →
     let out := usecases.DeleteTable (rest.service t) db id in
     let r := rest.Delete t c db in
     res_db r = out.1
     ∧ (out.2 = Some ErrTableNotFound →
        statusOf r = StatusBadRequest ∧ bodyOf r = BodyMap {[ "error" := "Table not found" ]})
     ∧ (∀ err, out.2 = Some err → err ≠ ErrTableNotFound →
        statusOf r = StatusInternalServerError
        ∧ bodyOf r = BodyMap {[ "error" := Error err ]})
     ∧ (out.2 = None →
        statusOf r = StatusOK
        ∧ bodyOf r = BodyMap {[ "message" := "Table deleted successfully" ]})).
Proof.
  split.
  - intros err Hid. unfold rest.Delete. rewrite Hid. done.
  - intros id Hid. unfold rest.Delete. rewrite Hid.
    destruct (usecases.DeleteTable _ db id) as [db' err]. simpl.
    destruct err as [[]|]; repeat split; try done; intros; simplify_eq; done.
Qed.

(** X6. In [AddTable], [Edit] and [AssignTable] a request the validator
    rejects never reaches the service, whether its body parsed or not: the
    answer is 400 with the validator's value as the body, the store is
    untouched, and the result is the same for every service. *)
Theorem validation_failure_skips_service t c db :
  (∀ v, ValidateStructAdd (BodyParserAdd c).1 = Some v →
     statusOf (rest.AddTable t c db) = StatusBadRequest
     ∧ bodyOf (rest.AddTable t c db) = BodyValidation v
     ∧ res_db (rest.AddTable t c db) = db
     ∧ ∀ t', rest.AddTable t' c db = rest.AddTable t c db)
  ∧ (∀ v, ValidateStructEdit (BodyParserEdit c).1 = Some v →
     statusOf (rest.Edit t c db) = StatusBadRequest
     ∧ bodyOf (rest.Edit t c db) = BodyValidation v
     ∧ res_db (rest.Edit t c db) = db
     ∧ ∀ t', rest.Edit t' c db = rest.Edit t c db)
  ∧ (∀ v, ValidateStructAssign (BodyParserAssign c).1 = Some v →
     statusOf (rest.AssignTable t c db) = StatusBadRequest
     ∧ bodyOf (rest.AssignTable t c db) = BodyValidation v
     ∧ res_db (rest.AssignTable t c db) = db
     ∧ ∀ t', rest.AssignTable t' c db = rest.AssignTable t c db).
Proof.
  repeat apply conj.
  - intros v. unfold rest.AddTable. destruct (BodyParserAdd c) as [req perr].
    simpl. by intros ->.
  - intros v. unfold rest.Edit. destruct (BodyParserEdit c) as [req perr].
    simpl. by intros ->.
  - intros v. unfold rest.AssignTable. destruct (BodyParserAssign c) as [req perr].
    simpl. by intros ->.
Qed.

(** X7. No table handler touches anything but the response: after each of
    the seven, the request, the route parameters, the locals and the count
    of [c.Next()] calls are as they were, and the error handed back to the
    router is nil, whatever the service did. *)
Theorem handlers_write_only_the_response t c db :
  Forall (λ h, sameRequest c (res_ctx (h t c db)) ∧ res_err (h t c db) = None)
         tableHandlers.
Proof.
  unfold tableHandlers, sameRequest.
  repeat apply Forall_cons_2; [..|apply Forall_nil_2]; cbv beta.
  - unfold rest.AddTable. destruct (BodyParserAdd c) as [req [perr|]];
      destruct (ValidateStructAdd req); try done;
      by destruct (usecases.AddTable _ db req) as [db' [[]|]].
  - unfold rest.FindAllTables.
    by destruct (usecases.FindAllTables _ db) as [db' [tables [err|]]].
  - unfold rest.FindTableByID. destruct (ValidateUUID _); [|done].
    by destruct (usecases.FindTableByID _ db _) as [db' [table [[]|]]].
  - done.
  - unfold rest.Edit. destruct (BodyParserEdit c) as [req [perr|]];
      destruct (ValidateStructEdit req); try done;
      by destruct (usecases.EditTable _ db req) as [db' [[]|]].
  - unfold rest.Delete. destruct (ValidateUUID _); [|done].
    by destruct (usecases.DeleteTable _ db _) as [db' [[]|]].
  - unfold rest.AssignTable. destruct (BodyParserAssign c) as [req [perr|]];
      destruct (ValidateStructAssign req); try done;
      by destruct (usecases.AssignTable _ db req) as [db' [table [[]|]]].
Qed.

(** X8. The status codes of the table handlers: [AddTable], [Edit],
    [Delete] and [AssignTable] answer 200, 400 or 500; [FindTableByID]
    200, 400, 404 or 500; [FindAllTables] 200 or 500; [FindCustomerTable]
    200. None of them answers 401 or 403, and 404 comes from
    [FindTableByID] alone. *)
Theorem handler_status_codes t c db :
  statusOf (rest.AddTable t c db)
    ∈ [StatusOK; StatusBadRequest; StatusInternalServerError]
  ∧ statusOf (rest.Edit t c db)
    ∈ [StatusOK; StatusBadRequest; StatusInternalServerError]
  ∧ statusOf (rest.Delete t c db)
    ∈ [StatusOK; StatusBadRequest; StatusInternalServerError]
  ∧ statusOf (rest.AssignTable t c db)
    ∈ [StatusOK; StatusBadRequest; StatusInternalServerError]
  ∧ statusOf (rest.FindTableByID t c db)
    ∈ [StatusOK; StatusBadRequest; StatusNotFound; StatusInternalServerError]
  ∧ statusOf (rest.FindAllTables t c db) ∈ [StatusOK; StatusInternalServerError]
  ∧ statusOf (rest.FindCustomerTable t c db) = StatusOK.
Proof.
  unfold statusOf. repeat apply conj.
  - unfold rest.AddTable. destruct (BodyParserAdd c) as [req [perr|]];
      destruct (ValidateStructAdd req); simpl; try by repeat constructor.
    all: by destruct (usecases.AddTable _ db req) as [db' [[]|]]; simpl;
      repeat constructor.
  - unfold rest.Edit. destruct (BodyParserEdit c) as [req [perr|]];
      destruct (ValidateStructEdit req); simpl; try by repeat constructor.
    all: by destruct (usecases.EditTable _ db req) as [db' [[]|]]; simpl;
      repeat constructor.
  - unfold rest.Delete. destruct (ValidateUUID _); simpl; [|by repeat constructor].
    by destruct (usecases.DeleteTable _ db _) as [db' [[]|]]; simpl;
      repeat constructor.
  - unfold rest.AssignTable. destruct (BodyParserAssign c) as [req [perr|]];
      destruct (ValidateStructAssign req); simpl; try by repeat constructor.
    all: by destruct (usecases.AssignTable _ db req) as [db' [table [[]|]]]; simpl;
      repeat constructor.
  - unfold rest.FindTableByID. destruct (ValidateUUID _); simpl;
      [|by repeat constructor].
    by destruct (usecases.FindTableByID _ db _) as [db' [table [[]|]]]; simpl;
      repeat constructor.
  - unfold rest.FindAllTables.
    by destruct (usecases.FindAllTables _ db) as [db' [tables [err|]]]; simpl;
      repeat constructor.
  - done.
Qed.

End HandlerOutcomes.

(** * More of the middleware and of the routes *)

Section GateProperties.
Context `{Externals}.
Import middleware main.

Lemma serve_manage_gate w c db :
  HasPrefix (reqPath c) "/manage/" = true →
  serve w behindCors c db
  = AuthMiddleware (cfg w)
      (RoleMiddleware [models.Employee; models.Manager] (serve w manageRoutes)) c db.
Proof.
  intros Hp. apply HasPrefix_inv in Hp as [rest Hp].
  destruct c as [m pa hs ps b ls st bd n]. simpl in Hp. subst pa.
  unfold behindCors, manageRoutes, routes. cbn [List.tl List.skipn].
  cbn -[AuthMiddleware RoleMiddleware String.eqb].
  by repeat (destruct (String.eqb _ m); cbn -[AuthMiddleware RoleMiddleware String.eqb]).
Qed.

(** X10. The handler of [app.Use(cors.New())] is the first to run on every
    request, before any route and before authentication; the rest of the
    stack is what its [c.Next()] runs. *)
Theorem cors_runs_first w c db :
  HasPrefix (reqPath c) "/" = true →
  serve w routes c db = foreign w cors_New (serve w behindCors) c db.
Proof.
  intros Hp. unfold behindCors, routes. cbn [List.tl].
  cbn -[AuthMiddleware RoleMiddleware String.eqb HasPrefix].
  unfold matchRoute. cbn [r_use r_path]. rewrite Hp.
  by destruct c.
Qed.

(** X11. Every request under [/manage/] that fails authentication is
    answered 401 by the group's [AuthMiddleware], for every method and
    whether or not the path is a registered route (tables, categories,
    menus or none): no route of the group is tried and the store is
    untouched. *)
Theorem manage_requires_authentication w c db :
  HasPrefix (reqPath c) "/manage/" = true →
  authFails (cfg w) c →
  serve w behindCors c db = unauthorized c db
  ∧ statusOf (serve w behindCors c db) = StatusUnauthorized
  ∧ res_db (serve w behindCors c db) = db
  ∧ nextCalls (res_ctx (serve w behindCors c db)) = nextCalls c.
Proof.
  intros Hp Hf. rewrite (serve_manage_gate w c db Hp).
  by rewrite (auth_rejects _ _ _ _ Hf).
Qed.

(** X12. Every request under [/manage/] with a valid token meets the role
    check for Employee and Manager: with one of the two roles it goes on
    to the routes of the group, with the claims stored; with another role,
    or none in the claims, it is answered 403, for every method and path,
    and the store is untouched. *)
Theorem manage_role_gate w c db tokenStr tok :
  HasPrefix (reqPath c) "/manage/" = true →
  Get c "Authorization" = "Bearer " +:+ tokenStr →
  jwt_Parse tokenStr (JWTSecret (cfg w)) = ParseOk tok →
  Valid tok = true →
  let c1 := countNext (setLocals c "user" (LocalClaims (Claims tok))) in
  (∀ role, Claims tok !! "role" = Some role →
     role ∈ [models.Employee; models.Manager] →
     serve w behindCors c db = serve w manageRoutes (countNext c1) db)
  ∧ (∀ role, Claims tok !! "role" = Some role →
     role ∉ [models.Employee; models.Manager] →
     serve w behindCors c db
     = JSON (Status c1 StatusForbidden) (BodyMap {[ "error" := "Forbidden" ]}) db)
  ∧ (Claims tok !! "role" = None →
     serve w behindCors c db
     = JSON (Status c1 StatusForbidden) (BodyMap {[ "error" := "Forbidden" ]}) db).
Proof.
  intros Hpre Hh Hp Hv c1.
  rewrite (serve_manage_gate w c db Hpre), (auth_accepts _ _ _ _ _ _ Hh Hp Hv).
  fold c1.
  assert (Hu : Locals c1 "user" = Some (LocalClaims (Claims tok)))
    by apply lookup_insert_eq.
  repeat split.
  - intros role Hr Hin. by rewrite (role_accepts _ _ _ _ _ role Hu Hr Hin).
  - intros role Hr Hnot. rewrite (role_rejects _ _ _ _ _ Hu); [done|].
    right. by exists role.
  - intros Hr. rewrite (role_rejects _ _ _ _ _ Hu); [done|]. by left.
Qed.

Lemma behindCors_eq :
  behindCors
  = mkRoute false "GET" "/swagger/*" [swagger_HandlerDefault]
    :: mkRoute false "GET" "/" [rootHandler]
    :: mkRoute false "POST" "/auth/register" [userHandler_Register]
    :: afterRegister.
Proof. reflexivity. Qed.

Lemma afterRegister_eq :
  afterRegister = mkRoute false "POST" "/auth/login" [userHandler_Login] :: afterLogin.
Proof. reflexivity. Qed.

(** X13. [POST /auth/register] and [POST /auth/login] are outside the
    [/manage] group: the user handler is the first handler of the stack
    behind CORS to run, on the request as it came and whatever its
    [Authorization] header is; no token is looked at. *)
Theorem auth_routes_need_no_token w c db :
  reqMethod c = "POST" →
  (reqPath c = "/auth/register" →
   serve w behindCors c db
   = foreign w userHandler_Register (serve w afterRegister) (setParams c ∅) db)
  ∧ (reqPath c = "/auth/login" →
     serve w behindCors c db
     = foreign w userHandler_Login (serve w afterLogin) (setParams c ∅) db).
Proof.
  intros Hm. split; intros Hp.
  - assert (Hs : segments (reqPath c) = [""; "auth"; "register"]) by by rewrite Hp.
    rewrite behindCors_eq. cbn [serve]. unfold matchRoute.
    cbn [r_use r_method r_path r_handlers]. rewrite Hm, Hs. reflexivity.
  - assert (Hs : segments (reqPath c) = [""; "auth"; "login"]) by by rewrite Hp.
    rewrite behindCors_eq, afterRegister_eq. cbn [serve]. unfold matchRoute.
    cbn [r_use r_method r_path r_handlers]. rewrite Hm, Hs. reflexivity.
Qed.

Lemma segments_under (dir i : string) :
  segments i = [i] → dir = "categories" ∨ dir = "menus" →
  segments ("/manage/" +:+ dir +:+ "/" +:+ i) = [""; "manage"; dir; i].
Proof.
  unfold segments. intros Hi [-> | ->];
    cbv beta iota fix delta [String.append]; simpl; by rewrite Hi.
Qed.

Ltac run_group Hm Hs :=
  rewrite manageRoutes_eq; cbn [serve]; unfold matchRoute;
  cbn [r_use r_method r_path r_handlers]; rewrite Hm, Hs;
  cbn -[rest.FindAllTables rest.FindTableByID rest.AddTable rest.Edit rest.Delete
        String.append].

(** X14. The category and menu routes are routes of the [/manage] group,
    so they sit behind the same two middlewares as the table routes. Among
    the routes of the group, [GET] and [POST /manage/categories],
    [GET /manage/categories/:id], [GET] and [POST /manage/menus] and
    [GET /manage/menus/:id] run the category and menu handlers, with the
    [id] segment as the route parameter. *)
Theorem category_and_menu_routes w c db :
  (reqPath c = "/manage/categories" →
     (reqMethod c = "GET" →
      serve w manageRoutes c db
      = foreign w categoryHandler_FindAllCategories (serve w (List.skipn 12 routes))
          (setParams c ∅) db)
     ∧ (reqMethod c = "POST" →
        serve w manageRoutes c db
        = foreign w categoryHandler_AddCategory (serve w (List.skipn 14 routes))
            (setParams c ∅) db))
  ∧ (reqPath c = "/manage/menus" →
     (reqMethod c = "GET" →
      serve w manageRoutes c db
      = foreign w menuHandler_FindAll (serve w (List.skipn 15 routes))
          (setParams c ∅) db)
     ∧ (reqMethod c = "POST" →
        serve w manageRoutes c db
        = foreign w menuHandler_Create (serve w (List.skipn 17 routes))
            (setParams c ∅) db))
  ∧ (∀ i, segments i = [i] → i ≠ "" → reqMethod c = "GET" →
     (reqPath c = "/manage/categories/" +:+ i →
      serve w manageRoutes c db
      = foreign w categoryHandler_FindCategoryByID (serve w (List.skipn 13 routes))
          (setParams c {[ "id" := i ]}) db)
     ∧ (reqPath c = "/manage/menus/" +:+ i →
        serve w manageRoutes c db
        = foreign w menuHandler_FindByID (serve w (List.skipn 16 routes))
            (setParams c {[ "id" := i ]}) db)).
Proof.
  repeat apply conj.
  - intros Hp.
    assert (Hs : segments (reqPath c) = [""; "manage"; "categories"]) by by rewrite Hp.
    split; intros Hm; by run_group Hm Hs.
  - intros Hp.
    assert (Hs : segments (reqPath c) = [""; "manage"; "menus"]) by by rewrite Hp.
    split; intros Hm; by run_group Hm Hs.
  - intros i Hi Hne Hm. apply String.eqb_neq in Hne. split; intros Hp.
    + assert (Hs : segments (reqPath c) = [""; "manage"; "categories"; i]).
      { rewrite Hp. apply (segments_under "categories" i Hi). by left. }
      run_group Hm Hs. rewrite Hne. by rewrite insert_empty.
    + assert (Hs : segments (reqPath c) = [""; "manage"; "menus"; i]).
      { rewrite Hp. apply (segments_under "menus" i Hi). by right. }
      run_group Hm Hs. rewrite Hne. by rewrite insert_empty.
Qed.

End GateProperties.

(** * The further theorems on concrete requests *)

Section MoreExamples.
Import (hints) tablespec example.
Import example.

Lemma add_table_responses_witness :
  ValidateStructAdd (BodyParserAdd (request "POST" "/manage/tables" ∅ "T1")).1 = None
  ∧ statusOf (rest.AddTable handler (request "POST" "/manage/tables" ∅ "T1") store)
    = StatusBadRequest
  ∧ bodyOf (rest.AddTable (rest.NewTableHandler (failing ErrTableNotFound))
              (request "POST" "/manage/tables" ∅ "T1") store)
    = BodyMap {[ "error" := "table not found" ]}
  ∧ res_db (rest.AddTable handler (request "POST" "/manage/tables" ∅ "T3") store)
    = store ++ [tablespec.mkTable "t3" "T3" 4 tablespec.Free ""].
Proof.
  assert (H1 : ValidateStructAdd (BodyParserAdd (request "POST" "/manage/tables" ∅ "T1")).1
               = None) by reflexivity.
  assert (H3 : ValidateStructAdd (BodyParserAdd (request "POST" "/manage/tables" ∅ "T3")).1
               = None) by reflexivity.
  split; [exact H1|]. repeat apply conj.
  - destruct (add_table_responses handler _ store H1) as (_ & Hdup & _).
    apply Hdup. reflexivity.
  - destruct (add_table_responses (rest.NewTableHandler (failing ErrTableNotFound))
                _ store H1) as (_ & _ & Hother & _).
    apply (Hother ErrTableNotFound); [reflexivity|discriminate].
  - destruct (add_table_responses handler _ store H3) as (Hdb & _).
    rewrite Hdb. reflexivity.
Defined.

Lemma find_all_tables_responses_witness :
  statusOf (rest.FindAllTables (rest.NewTableHandler (failing ErrTableNotFound))
              (request "GET" "/manage/tables" ∅ "") store)
  = StatusInternalServerError
  ∧ bodyOf (rest.FindAllTables handler (request "GET" "/manage/tables" ∅ "") store)
    = BodyTables store.
Proof.
  split.
  - destruct (find_all_tables_responses (rest.NewTableHandler (failing ErrTableNotFound))
                (request "GET" "/manage/tables" ∅ "") store) as (_ & Herr & _).
    apply (Herr ErrTableNotFound). reflexivity.
  - destruct (find_all_tables_responses handler
                (request "GET" "/manage/tables" ∅ "") store) as (_ & _ & Hok).
    apply Hok. reflexivity.
Defined.

Lemma find_table_by_id_responses_witness :
  ValidateUUID (Params (request "GET" "/manage/tables/" ∅ "") "id")
  = inr (ErrOther "invalid UUID length")
  ∧ statusOf (rest.FindTableByID handler (request "GET" "/manage/tables/" ∅ "") store)
    = StatusBadRequest
  ∧ statusOf (rest.FindTableByID handler
                (setParams (request "GET" "/manage/tables/t9" ∅ "") {[ "id" := "t9" ]}) store)
    = StatusNotFound
  ∧ statusOf (rest.FindTableByID (rest.NewTableHandler (failing ErrDuplicatedTableName))
                (setParams (request "GET" "/manage/tables/t1" ∅ "") {[ "id" := "t1" ]}) store)
    = StatusInternalServerError
  ∧ bodyOf (rest.FindTableByID handler
              (setParams (request "GET" "/manage/tables/t1" ∅ "") {[ "id" := "t1" ]}) store)
    = BodyTable (Some T1).
Proof.
  assert (Hbad : ValidateUUID (Params (request "GET" "/manage/tables/" ∅ "") "id")
                 = inr (ErrOther "invalid UUID length")) by reflexivity.
  split; [exact Hbad|]. repeat apply conj.
  - destruct (find_table_by_id_responses handler
                (request "GET" "/manage/tables/" ∅ "") store) as (Hinv & _).
    destruct (Hinv _ Hbad) as (-> & _). reflexivity.
  - destruct (find_table_by_id_responses handler
                (setParams (request "GET" "/manage/tables/t9" ∅ "") {[ "id" := "t9" ]})
                store) as (_ & Hok).
    destruct (Hok "t9" eq_refl) as (_ & Hnf & _). apply Hnf. reflexivity.
  - destruct (find_table_by_id_responses
                (rest.NewTableHandler (failing ErrDuplicatedTableName))
                (setParams (request "GET" "/manage/tables/t1" ∅ "") {[ "id" := "t1" ]})
                store) as (_ & Hok).
    destruct (Hok "t1" eq_refl) as (_ & _ & Hother & _).
    apply (Hother ErrDuplicatedTableName); [reflexivity|discriminate].
  - destruct (find_table_by_id_responses handler
                (setParams (request "GET" "/manage/tables/t1" ∅ "") {[ "id" := "t1" ]})
                store) as (_ & Hok).
    destruct (Hok "t1" eq_refl) as (_ & _ & _ & Hfound). apply Hfound. reflexivity.
Defined.

Lemma edit_responses_witness :
  ValidateStructEdit (BodyParserEdit (request "PUT" "/manage/tables" ∅ "T2")).1 = None
  ∧ (usecases.EditTable (rest.service handler) store
       (BodyParserEdit (request "PUT" "/manage/tables" ∅ "T2")).1).2
    = Some ErrDuplicatedTableName
  ∧ statusOf (rest.Edit handler (request "PUT" "/manage/tables" ∅ "T2") store)
    = StatusInternalServerError
  ∧ statusOf (rest.Edit handler (request "PUT" "/manage/tables" ∅ "T2") [T2])
    = StatusBadRequest
  ∧ bodyOf (rest.Edit handler (request "PUT" "/manage/tables" ∅ "T5") store)
    = BodyMap {[ "message" := "Table edited successfully" ]}
  ∧ res_db (rest.Edit handler (request "PUT" "/manage/tables" ∅ "T5") store)
    = [tablespec.mkTable "t1" "T5" 4 tablespec.Free ""; T2].
Proof.
  assert (H2 : ValidateStructEdit (BodyParserEdit (request "PUT" "/manage/tables" ∅ "T2")).1
               = None) by reflexivity.
  assert (H5 : ValidateStructEdit (BodyParserEdit (request "PUT" "/manage/tables" ∅ "T5")).1
               = None) by reflexivity.
  split; [exact H2|]. split; [reflexivity|]. repeat apply conj.
  - destruct (edit_responses handler _ store H2) as (_ & _ & _ & Hdup & _).
    apply Hdup. reflexivity.
  - destruct (edit_responses handler _ [T2] H2) as (_ & Hnf & _).
    apply Hnf. reflexivity.
  - destruct (edit_responses handler _ store H5) as (_ & _ & _ & _ & Hok).
    apply Hok. reflexivity.
  - destruct (edit_responses handler _ store H5) as (Hdb & _).
    rewrite Hdb. reflexivity.
Defined.

Lemma delete_responses_witness :
  ValidateUUID (Params (request "DELETE" "/manage/tables/" ∅ "") "id")
  = inr (ErrOther "invalid UUID length")
  ∧ res_db (rest.Delete handler (request "DELETE" "/manage/tables/" ∅ "") store) = store
  ∧ statusOf (rest.Delete handler
                (setParams (request "DELETE" "/manage/tables/t9" ∅ "") {[ "id" := "t9" ]})
                store)
    = StatusBadRequest
  ∧ res_db (rest.Delete handler
              (setParams (request "DELETE" "/manage/tables/t1" ∅ "") {[ "id" := "t1" ]})
              store)
    = [T2]
  ∧ bodyOf (rest.Delete handler
              (setParams (request "DELETE" "/manage/tables/t1" ∅ "") {[ "id" := "t1" ]})
              store)
    = BodyMap {[ "message" := "Table deleted successfully" ]}.
Proof.
  assert (Hbad : ValidateUUID (Params (request "DELETE" "/manage/tables/" ∅ "") "id")
                 = inr (ErrOther "invalid UUID length")) by reflexivity.
  split; [exact Hbad|]. repeat apply conj.
  - destruct (delete_responses handler
                (request "DELETE" "/manage/tables/" ∅ "") store) as (Hinv & _).
    destruct (Hinv _ Hbad) as (-> & _). reflexivity.
  - destruct (delete_responses handler
                (setParams (request "DELETE" "/manage/tables/t9" ∅ "") {[ "id" := "t9" ]})
                store) as (_ & Hok).
    destruct (Hok "t9" eq_refl) as (_ & Hnf & _). apply Hnf. reflexivity.
  - destruct (delete_responses handler
                (setParams (request "DELETE" "/manage/tables/t1" ∅ "") {[ "id" := "t1" ]})
                store) as (_ & Hok).
    destruct (Hok "t1" eq_refl) as (Hdb & _). rewrite Hdb. reflexivity.
  - destruct (delete_responses handler
                (setParams (request "DELETE" "/manage/tables/t1" ∅ "") {[ "id" := "t1" ]})
                store) as (_ & Hok).
    destruct (Hok "t1" eq_refl) as (_ & _ & _ & Hdone). apply Hdone. reflexivity.
Defined.

Lemma validation_failure_skips_service_witness :
  ValidateStructAdd (BodyParserAdd (request "POST" "/manage/tables" ∅ " ")).1
  = Some ["name is required"]
  ∧ res_db (rest.AddTable handler (request "POST" "/manage/tables" ∅ " ") store) = store
  ∧ bodyOf (rest.Edit handler (request "PUT" "/manage/tables" ∅ "") store)
    = BodyValidation ["request is required"]
  ∧ statusOf (rest.AssignTable handler (request "POST" "/manage/tables/assign" ∅ " ") store)
    = StatusBadRequest.
Proof.
  assert (Ha : ValidateStructAdd (BodyParserAdd (request "POST" "/manage/tables" ∅ " ")).1
               = Some ["name is required"]) by reflexivity.
  assert (He : ValidateStructEdit (BodyParserEdit (request "PUT" "/manage/tables" ∅ "")).1
               = Some ["request is required"]) by reflexivity.
  assert (Hs : ValidateStructAssign
                 (BodyParserAssign (request "POST" "/manage/tables/assign" ∅ " ")).1
               = Some ["name is required"]) by reflexivity.
  split; [exact Ha|]. repeat apply conj.
  - destruct (validation_failure_skips_service handler
                (request "POST" "/manage/tables" ∅ " ") store) as (Hadd & _).
    apply (Hadd _ Ha).
  - destruct (validation_failure_skips_service handler
                (request "PUT" "/manage/tables" ∅ "") store) as (_ & Hedit & _).
    apply (Hedit _ He).
  - destruct (validation_failure_skips_service handler
                (request "POST" "/manage/tables/assign" ∅ " ") store) as (_ & _ & Hasg).
    apply (Hasg _ Hs).
Defined.

Lemma cors_runs_first_witness :
  HasPrefix (reqPath (request "GET" "/manage/tables" ∅ "")) "/" = true
  ∧ main.serve wiring main.routes (request "GET" "/manage/tables" ∅ "") store
    = main.foreign wiring main.cors_New (main.serve wiring behindCors)
        (request "GET" "/manage/tables" ∅ "") store.
Proof.
  split; [reflexivity|].
  apply (cors_runs_first wiring (request "GET" "/manage/tables" ∅ "") store).
  reflexivity.
Defined.

Lemma manage_requires_authentication_witness :
  HasPrefix (reqPath (request "DELETE" "/manage/unknown" ∅ "")) "/manage/" = true
  ∧ authFails (main.cfg wiring) (request "DELETE" "/manage/unknown" ∅ "")
  ∧ statusOf (main.serve wiring behindCors (request "DELETE" "/manage/unknown" ∅ "") store)
    = StatusUnauthorized
  ∧ res_db (main.serve wiring behindCors (request "DELETE" "/manage/unknown" ∅ "") store)
    = store.
Proof.
  assert (Hf : authFails (main.cfg wiring) (request "DELETE" "/manage/unknown" ∅ ""))
    by (left; reflexivity).
  split; [reflexivity|]. split; [exact Hf|].
  destruct (manage_requires_authentication wiring
              (request "DELETE" "/manage/unknown" ∅ "") store eq_refl Hf)
    as (_ & Hs & Hdb & _).
  exact (conj Hs Hdb).
Defined.

Lemma manage_role_gate_witness :
  jwt_Parse "s3cret:Guest" (JWTSecret (main.cfg wiring))
  = ParseOk (mkToken true {[ "role" := "Guest" ]})
  ∧ statusOf (main.serve wiring behindCors
                (request "GET" "/manage/menus" (bearer "s3cret:Guest") "") store)
    = StatusForbidden
  ∧ main.serve wiring behindCors
      (request "GET" "/manage/menus" (bearer "s3cret:Manager") "") store
    = main.serve wiring manageRoutes
        (countNext (countNext (setLocals
           (request "GET" "/manage/menus" (bearer "s3cret:Manager") "")
           "user" (LocalClaims {[ "role" := "Manager" ]})))) store.
Proof.
  assert (Hg : jwt_Parse "s3cret:Guest" (JWTSecret (main.cfg wiring))
               = ParseOk (mkToken true {[ "role" := "Guest" ]})) by reflexivity.
  assert (Hm : jwt_Parse "s3cret:Manager" (JWTSecret (main.cfg wiring))
               = ParseOk (mkToken true {[ "role" := "Manager" ]})) by reflexivity.
  split; [exact Hg|]. split.
  - destruct (manage_role_gate wiring
                (request "GET" "/manage/menus" (bearer "s3cret:Guest") "") store
                "s3cret:Guest" _ eq_refl eq_refl Hg eq_refl) as (_ & Hrej & _).
    rewrite (Hrej "Guest" eq_refl); [reflexivity|].
    rewrite !not_elem_of_cons. repeat split; [discriminate..|apply not_elem_of_nil].
  - destruct (manage_role_gate wiring
                (request "GET" "/manage/menus" (bearer "s3cret:Manager") "") store
                "s3cret:Manager" _ eq_refl eq_refl Hm eq_refl) as (Hpass & _).
    apply (Hpass "Manager" eq_refl).
    apply list_elem_of_further, list_elem_of_here.
Defined.

Lemma auth_routes_need_no_token_witness :
  reqMethod (request "POST" "/auth/login" ∅ "") = "POST"
  ∧ main.serve wiring behindCors (request "POST" "/auth/login" ∅ "") store
    = main.foreign wiring main.userHandler_Login (main.serve wiring afterLogin)
        (setParams (request "POST" "/auth/login" ∅ "") ∅) store
  ∧ main.serve wiring behindCors (request "POST" "/auth/register" ∅ "") store
    = main.foreign wiring main.userHandler_Register (main.serve wiring afterRegister)
        (setParams (request "POST" "/auth/register" ∅ "") ∅) store.
Proof.
  split; [reflexivity|]. split.
  - destruct (auth_routes_need_no_token wiring
                (request "POST" "/auth/login" ∅ "") store eq_refl) as (_ & Hlogin).
    apply Hlogin. reflexivity.
  - destruct (auth_routes_need_no_token wiring
                (request "POST" "/auth/register" ∅ "") store eq_refl) as (Hreg & _).
    apply Hreg. reflexivity.
Defined.

Lemma category_and_menu_routes_witness :
  main.segments "7" = ["7"]
  ∧ main.serve wiring manageRoutes (request "POST" "/manage/categories" ∅ "") store
    = main.foreign wiring main.categoryHandler_AddCategory
        (main.serve wiring (List.skipn 14 main.routes))
        (setParams (request "POST" "/manage/categories" ∅ "") ∅) store
  ∧ main.serve wiring manageRoutes (request "GET" "/manage/menus/7" ∅ "") store
    = main.foreign wiring main.menuHandler_FindByID
        (main.serve wiring (List.skipn 16 main.routes))
        (setParams (request "GET" "/manage/menus/7" ∅ "") {[ "id" := "7" ]}) store.
Proof.
  split; [reflexivity|]. split.
  - destruct (category_and_menu_routes wiring
                (request "POST" "/manage/categories" ∅ "") store) as (Hcat & _).
    destruct (Hcat eq_refl) as (_ & Hpost). apply Hpost. reflexivity.
  - destruct (category_and_menu_routes wiring
                (request "GET" "/manage/menus/7" ∅ "") store) as (_ & _ & Hid).
    destruct (Hid "7" eq_refl) as (_ & Hmenu); [discriminate|reflexivity|].
    apply Hmenu. reflexivity.
Defined.

End MoreExamples.
